(** * CMIP6 cookbook: the ESGF / ARM comparison notebook and the site configuration

    The repository holds one executable artefact, the notebook
    [notebooks/example-workflows/esgf2-arm-comparison.ipynb], and the Jupyter
    Book configuration [_config.yml].  The notebook is a straight-line script over
    xarray, pandas, pint (through MetPy), pyesgf, ACT and dask.

    This development embeds
    - the arithmetic the notebook writes itself (the longitude remapping),
    - the array operations it calls, as pure functions on labelled lists,
      following the documented behaviour of the libraries,
    - the script as a whole, as a program in a small logging error monad over
      the services it talks to, and
    - the configuration file, as a YAML tree.

    A float64 number is given by its rational value ([Q]).  The arithmetic the
    notebook writes itself rounds as IEEE 754 binary64 does; what the libraries
    compute inside (means, unit conversions) is kept exact.  NaN, infinities and
    overflow are outside the model. *)

From Stdlib Require Import ZArith QArith Qround Qabs Qpower Lqa Lia Bool List String Ascii.
From Stdlib Require Import Sorting.Sorted Sorting.Permutation FinFun.
From Stdlib Require PrimFloat FloatOps SpecFloat.
Import ListNotations.

Set Implicit Arguments.
Set Warnings "-register-all".
Open Scope string_scope.
Open Scope list_scope.

(** ** Python exceptions and results

    [CfKeyError key] is the [KeyError] cf_xarray raises for a key it does not
    understand, worded by the library; [UndefinedUnitError name] is pint's, for
    a unit name its registry does not hold. *)

Inductive Exn : Type :=
| IndexError
| KeyError (key : string)
| CfKeyError (key : string)
| UndefinedUnitError (name : string)
| ValueError (msg : string)
| TypeError (msg : string)
| DimensionalityError (src dst : string)
| LibraryError (origin msg : string).

Inductive result (A : Type) : Type :=
| Ok (a : A)
| Raised (e : Exn).

Arguments Ok {A} a.
Arguments Raised {A} e.

Definition exn_of {A} (r : result A) : option Exn :=
  match r with
  | Ok _ => None
  | Raised e => Some e
  end.

(** [xs[i]] on a Python sequence, for [i >= 0]. *)
Definition getitem {A} (xs : list A) (i : nat) : result A :=
  match nth_error xs i with
  | Some x => Ok x
  | None => Raised IndexError
  end.

(** ** float64 arithmetic

    A finite float64 is a rational [m * 2^e] with [|m| < 2^53] and
    [e >= -1074].  An operation computes the exact result and rounds it to the
    nearest such number, a tie going to the even [m]. *)

Definition pow2 (e : Z) : Q := (2 ^ e)%Q.

(** The exponent of the binade of a positive rational: [2^e <= q < 2^(e+1)]. *)
Definition log2_floor (q : Q) : Z :=
  let l := (Z.log2 (Qnum q) - Z.log2 (Zpos (Qden q)))%Z in
  if Qle_bool (pow2 l) q then l else (l - 1)%Z.

(** The exponent of the last place of the float64 numbers around [q]: 52 below
    the binade, and never below that of the subnormal numbers. *)
Definition ulp_exp (q : Q) : Z := Z.max (log2_floor (Qabs q) - 52) (-1074).

(** The nearest integer, ties to even. *)
Definition rne (q : Q) : Z :=
  let f := Qfloor q in
  match (q - inject_Z f ?= 1 # 2)%Q with
  | Lt => f
  | Gt => (f + 1)%Z
  | Eq => if Z.even f then f else (f + 1)%Z
  end.

Definition round64 (q : Q) : Q :=
  if Qeq_bool q 0 then 0%Q
  else Qred (inject_Z (rne (q / pow2 (ulp_exp q))) * pow2 (ulp_exp q)).

Definition f64_add (a b : Q) : Q := round64 (a + b).
Definition f64_sub (a b : Q) : Q := round64 (a - b).

Definition Qtrunc (q : Q) : Z := if Qle_bool 0 q then Qfloor q else Qceiling q.

(** C's [fmod]: the remainder with the sign of [a]; it is always exact. *)
Definition fmod (a b : Q) : Q := Qred (a - b * inject_Z (Qtrunc (a / b))).

Definition Qnegative (q : Q) : bool := negb (Qle_bool 0 q).

(** [a % b] on float64 arrays ([b] not zero): [fmod], moved by [b] when its sign
    is not that of [b]. *)
Definition f64_mod (a b : Q) : Q :=
  let m := fmod a b in
  if Qeq_bool m 0 then 0%Q
  else if Bool.eqb (Qnegative b) (Qnegative m) then m else f64_add m b.

(** The rational value of a primitive float, to compare the model with the
    machine's arithmetic. *)
Definition Q_of_float (f : PrimFloat.float) : option Q :=
  match FloatOps.Prim2SF f with
  | SpecFloat.S754_zero _ => Some 0%Q
  | SpecFloat.S754_finite s m e =>
      Some (Qred ((if s then -1 else 1) * inject_Z (Zpos m) * pow2 e))
  | _ => None
  end.

(** Whether the model's sum and difference of two floats are the machine's. *)
Definition same_as_hardware (a b : PrimFloat.float) : bool :=
  match Q_of_float a, Q_of_float b,
        Q_of_float (PrimFloat.add a b), Q_of_float (PrimFloat.sub a b) with
  | Some x, Some y, Some s, Some d =>
      Qeq_bool (f64_add x y) s && Qeq_bool (f64_sub x y) d
  | _, _, _, _ => false
  end.

(** ** Longitude remapping (notebook cell "Clean up the dataset") *)

(** [(esgf_ds[lon_coord] + 180) % 360 - 180], on one coordinate value. *)
Definition remap_lon (v : Q) : Q := f64_sub (f64_mod (f64_add v 180) 360) 180.

(** ** Labelled axes

    A dimension of a dataset is a list of coordinate labels, each paired with the
    slab of data found at that label. *)

Definition Labelled (K A : Type) : Type := list (K * A).

Definition labels {K A} (l : Labelled K A) : list K := map fst l.

(** Assigning a transformed coordinate: [ds[c] = f(ds[c])]. *)
Definition map_labels {K A} (f : K -> K) (l : Labelled K A) : Labelled K A :=
  map (fun p => (f (fst p), snd p)) l.

(** ** Sorting along a dimension *)

Section Sortby.
Variables K A : Type.
Variable leb : K -> K -> bool.

Fixpoint insert_by (x : K * A) (l : Labelled K A) : Labelled K A :=
  match l with
  | [] => [x]
  | y :: l' => if leb (fst x) (fst y) then x :: y :: l' else y :: insert_by x l'
  end.

(** Modelled from the spec: xarray's [sortby], library code that is not among
    the sources.  The spec has the dataset re-sorted along the axis, with a
    non-decreasing coordinate as the result; the model is the stable ascending
    rearrangement of the slabs by their label ([leb] is the order on labels). *)
Definition sortby (l : Labelled K A) : Labelled K A :=
  fold_right insert_by [] l.

(** An index in increasing order (pandas' [is_monotonic_increasing]). *)
Fixpoint is_monotonic (ks : list K) : bool :=
  match ks with
  | [] => true
  | k :: ks' =>
      match ks' with
      | [] => true
      | k' :: _ => leb k k' && is_monotonic ks'
      end
  end.
End Sortby.

(** ** Timestamps

    A [datetime64] instant by its calendar fields; [ts_nanos] is the time of day
    in nanoseconds.  Instants are compared chronologically: by month counted
    from year 0, then day, then time of day. *)

Record Timestamp : Type := mkTimestamp {
  ts_year : Z;
  ts_month : Z;
  ts_day : Z;
  ts_nanos : Z
}.

Definition month_index (t : Timestamp) : Z := 12 * ts_year t + (ts_month t - 1).

Definition ts_leb (a b : Timestamp) : bool :=
  (month_index a <? month_index b)%Z
  || ((month_index a =? month_index b)%Z
      && ((ts_day a <? ts_day b)%Z
          || ((ts_day a =? ts_day b)%Z && (ts_nanos a <=? ts_nanos b)%Z))).

Definition TimeSeries : Type := Labelled Timestamp Q.

(** Calendar dates, as written in [start_date] and [end_date]. *)
Record Date : Type := mkDate { d_year : Z; d_month : Z; d_day : Z }.

Definition date_of (t : Timestamp) : Date :=
  mkDate (ts_year t) (ts_month t) (ts_day t).

Definition date_leb (a b : Date) : bool :=
  let ma := (12 * d_year a + (d_month a - 1))%Z in
  let mb := (12 * d_year b + (d_month b - 1))%Z in
  (ma <? mb)%Z || ((ma =? mb)%Z && (d_day a <=? d_day b)%Z).

Definition digit (c : ascii) : option Z :=
  let n := (Z.of_nat (nat_of_ascii c) - 48)%Z in
  if ((0 <=? n) && (n <=? 9))%Z then Some n else None.

Fixpoint number (acc : Z) (cs : list ascii) : option Z :=
  match cs with
  | [] => Some acc
  | c :: cs' =>
      match digit c with
      | Some d => number (10 * acc + d) cs'
      | None => None
      end
  end.

(** ISO dates ["YYYY-MM-DD"], the only form the notebook uses. *)
Definition parse_date (s : string) : option Date :=
  match list_ascii_of_string s with
  | [y1; y2; y3; y4; s1; m1; m2; s2; d1; d2] =>
      if (Ascii.eqb s1 "-" && Ascii.eqb s2 "-")%char then
        match number 0 [y1; y2; y3; y4], number 0 [m1; m2], number 0 [d1; d2] with
        | Some y, Some m, Some d => Some (mkDate y m d)
        | _, _, _ => None
        end
      else None
  | _ => None
  end.

Definition nanos_per_day : Z := 86400000000000.

(** A date string used as a slice bound has day resolution: as a lower bound it
    stands for the first instant of the day, as an upper bound for the last. *)
Definition slice_lower (d : Date) : Timestamp :=
  mkTimestamp (d_year d) (d_month d) (d_day d) 0.

Definition slice_upper (d : Date) : Timestamp :=
  mkTimestamp (d_year d) (d_month d) (d_day d) (nanos_per_day - 1).

(** Modelled from the spec: [x.sel(time=slice(start, stop))] on a datetime
    index is xarray and pandas code, not among the sources.  The spec has the
    slice keep the timestamps of the date range, both bounds included; the
    model keeps the labels from the first instant of [start] to the last
    instant of [stop], in their order. *)
Definition sel_time_slice {A} (start stop : string) (l : Labelled Timestamp A)
  : result (Labelled Timestamp A) :=
  match parse_date start, parse_date stop with
  | Some a, Some b =>
      Ok (filter (fun p => ts_leb (slice_lower a) (fst p)
                           && ts_leb (fst p) (slice_upper b)) l)
  | _, _ => Raised (ValueError "could not parse date")
  end.

(** ** Monthly resampling *)

Definition Qsum (xs : list Q) : Q := fold_right Qplus 0%Q xs.

(** The mean of a bin; an empty bin gives NaN, here [None]. *)
Definition mean (xs : list Q) : option Q :=
  match xs with
  | [] => None
  | _ :: _ => Some (Qsum xs / inject_Z (Z.of_nat (List.length xs)))%Q
  end.

Definition is_leap (y : Z) : bool :=
  ((y mod 4 =? 0) && (negb (y mod 100 =? 0) || (y mod 400 =? 0)))%Z.

Definition days_in_month (y m : Z) : Z :=
  if (m =? 2)%Z then (if is_leap y then 29 else 28)%Z
  else if ((m =? 4) || (m =? 6) || (m =? 9) || (m =? 11))%Z then 30%Z
  else 31%Z.

(** The label of a monthly bin: midnight of the last day of the month. *)
Definition month_end (m : Z) : Timestamp :=
  let y := (m / 12)%Z in
  let mo := (m mod 12 + 1)%Z in
  mkTimestamp y mo (days_in_month y mo) 0.

Definition bin_values (m : Z) (s : TimeSeries) : list Q :=
  map snd (filter (fun p => (month_index (fst p) =? m)%Z) s).

(** The bins run from the month of the first instant to the month of the last. *)
Definition month_span (s : TimeSeries) : list Z :=
  match s with
  | [] => []
  | p :: _ =>
      let lo := month_index (fst p) in
      let hi := month_index (fst (last s p)) in
      map (fun i => (lo + Z.of_nat i)%Z) (seq 0 (Z.to_nat (hi - lo + 1)))
  end.

(** Modelled from the spec: [x.resample(time='1M').mean()], xarray and pandas
    code that is not among the sources.  The spec has the resampling
    calendar-aware, with one aggregate per calendar month of the covered span
    and no month skipped; the model makes one bin per month from the month of
    the first label to the month of the last, labels it with the month end and
    averages the values that fall in it.  As the library does, it refuses an
    index that is not in increasing order. *)
Definition resample_1M_mean (s : TimeSeries) : result (Labelled Timestamp (option Q)) :=
  match s with
  | [] => Raised (ValueError "cannot resample an empty time axis")
  | _ :: _ =>
      if is_monotonic ts_leb (labels s) then
        Ok (map (fun m => (month_end m, mean (bin_values m s))) (month_span s))
      else Raised (ValueError "index must be monotonic for resampling")
  end.

(** ** Units *)

Module Units.

Inductive Unit : Type :=
| kelvin
| degC
| degF
| degR
| other (name : string).

Definition parse_units (s : string) : Unit :=
  if (String.eqb s "K" || String.eqb s "kelvin" || String.eqb s "degK")%bool then kelvin
  else if (String.eqb s "degC" || String.eqb s "degree_Celsius"
           || String.eqb s "celsius")%bool then degC
  else if (String.eqb s "degF" || String.eqb s "degree_Fahrenheit"
           || String.eqb s "fahrenheit")%bool then degF
  else if (String.eqb s "degR" || String.eqb s "degree_Rankine"
           || String.eqb s "rankine")%bool then degR
  else other s.

Definition unit_name (u : Unit) : string :=
  match u with
  | kelvin => "kelvin"
  | degC => "degree_Celsius"
  | degF => "degree_Fahrenheit"
  | degR => "degree_Rankine"
  | other s => s
  end.

Definition unit_eqb (a b : Unit) : bool :=
  match a, b with
  | kelvin, kelvin | degC, degC | degF, degF | degR, degR => true
  | other s, other s' => String.eqb s s'
  | _, _ => false
  end.

(** A unit is defined against the reference unit (kelvin) by a scale and an
    offset: [reference = value * scale + offset]. *)
Record Converter : Type := mkConverter { scale : Q; offset : Q }.

Definition converter (u : Unit) : option Converter :=
  match u with
  | kelvin => Some (mkConverter 1 0)
  | degC => Some (mkConverter 1 (27315 # 100))
  | degF => Some (mkConverter (5 # 9) ((23315 # 100) + (200 # 9)))
  | degR => Some (mkConverter (5 # 9) 0)
  | other _ => None
  end.

Definition to_reference (c : Converter) (v : Q) : Q := (v * scale c + offset c)%Q.
Definition from_reference (c : Converter) (v : Q) : Q := ((v - offset c) / scale c)%Q.

(** Modelled from the spec: the unit conversion behind
    [x.metpy.convert_units], pint code that is not among the sources.  The spec
    has kelvin to Celsius as the affine map that subtracts 273.15, and a
    conversion to the unit a series already has as a no-op; the model is the
    registry's conversion through the reference unit for the temperature units,
    where equal units return the value untouched.  A unit of another dimension
    is kept by name and cannot be converted. *)
Definition convert (src dst : Unit) (v : Q) : result Q :=
  if unit_eqb src dst then Ok v
  else
    match converter src, converter dst with
    | Some a, Some b => Ok (from_reference b (to_reference a v))
    | _, _ => Raised (DimensionalityError (unit_name src) (unit_name dst))
    end.

Record Quantity : Type := mkQuantity { q_units : Unit; q_series : TimeSeries }.

Fixpoint convert_series (src dst : Unit) (s : TimeSeries) : result TimeSeries :=
  match s with
  | [] => Ok []
  | (t, v) :: s' =>
      match convert src dst v, convert_series src dst s' with
      | Ok v', Ok s'' => Ok ((t, v') :: s'')
      | Raised e, _ => Raised e
      | _, Raised e => Raised e
      end
  end.

(** [x.metpy.quantify()]: attach the unit named by the [units] attribute. *)
Definition quantify (units : string) (s : TimeSeries) : Quantity :=
  mkQuantity (parse_units units) s.

(** [x.metpy.quantify()] with the registry's check: a name with no unit behind
    it is refused.  [defined] tells which names the registry holds beyond the
    temperature units above. *)
Definition quantify_checked (defined : string -> bool) (units : string) (s : TimeSeries)
  : result Quantity :=
  match parse_units units with
  | other name =>
      if defined name then Ok (quantify units s) else Raised (UndefinedUnitError name)
  | _ => Ok (quantify units s)
  end.

(** [x.metpy.convert_units(target)]. *)
Definition convert_units (target : string) (q : Quantity) : result Quantity :=
  let dst := parse_units target in
  match convert_series (q_units q) dst (q_series q) with
  | Ok s => Ok (mkQuantity dst s)
  | Raised e => Raised e
  end.

End Units.

(** ** The site configuration [_config.yml] *)

Module Yaml.

(** A YAML document: plain scalars, quoted or literal scalars, sequences and
    mappings (in file order). *)
Inductive node : Type :=
| Plain (text : string)
| Quoted (text : string)
| Seq (items : list node)
| Map (entries : list (string * node)).

Fixpoint assoc (k : string) (es : list (string * node)) : option node :=
  match es with
  | [] => None
  | (k', v) :: es' => if String.eqb k k' then Some v else assoc k es'
  end.

Definition get (k : string) (n : node) : option node :=
  match n with
  | Map es => assoc k es
  | _ => None
  end.

Fixpoint get_path (path : list string) (n : node) : option node :=
  match path with
  | [] => Some n
  | k :: path' =>
      match get k n with
      | Some n' => get_path path' n'
      | None => None
      end
  end.

Definition one_of (s : string) (ws : list string) : bool :=
  existsb (String.eqb s) ws.

(** Only a plain scalar resolves to a boolean (YAML 1.1, as PyYAML reads it). *)
Definition as_bool (n : node) : option bool :=
  match n with
  | Plain s =>
      if one_of s ["yes"; "Yes"; "YES"; "true"; "True"; "TRUE"; "on"; "On"; "ON"]
      then Some true
      else if one_of s ["no"; "No"; "NO"; "false"; "False"; "FALSE"; "off"; "Off"; "OFF"]
      then Some false
      else None
  | _ => None
  end.

Definition as_string (n : node) : option string :=
  match n with
  | Plain s =>
      match as_bool n with
      | Some _ => None
      | None => Some s
      end
  | Quoted s => Some s
  | _ => None
  end.

End Yaml.

Definition dq : string := String (ascii_of_nat 34) EmptyString.
Definition nl : string := String (ascii_of_nat 10) EmptyString.

Definition config_yml : Yaml.node :=
  Yaml.Map [
    ("title", Yaml.Plain "CMIP6 Cookbook");
    ("author", Yaml.Plain "Ryan Abernathey, Henri Drake, Robert Ford");
    ("logo", Yaml.Plain "notebooks/images/logos/pythia_logo-white-rtext.svg");
    ("copyright", Yaml.Quoted "2023");
    ("execute", Yaml.Map [
      ("execute_notebooks", Yaml.Plain "force");
      ("allow_errors", Yaml.Plain "False")]);
    ("parse", Yaml.Map [
      ("myst_enable_extensions", Yaml.Seq [
        Yaml.Plain "amsmath"; Yaml.Plain "colon_fence"; Yaml.Plain "deflist";
        Yaml.Plain "dollarmath"; Yaml.Plain "html_admonition"; Yaml.Plain "html_image";
        Yaml.Plain "replacements"; Yaml.Plain "smartquotes"; Yaml.Plain "substitution"])]);
    ("sphinx", Yaml.Map [
      ("config", Yaml.Map [
        ("linkcheck_ignore", Yaml.Seq [Yaml.Quoted "https://doi.org/*"]);
        ("nb_execution_raise_on_error", Yaml.Plain "true");
        ("html_favicon", Yaml.Plain "notebooks/images/icons/favicon.ico");
        ("html_last_updated_fmt", Yaml.Quoted "%-d %B %Y");
        ("html_theme", Yaml.Plain "sphinx_pythia_theme");
        ("html_permalinks_icon",
          Yaml.Quoted ("<i class=" ++ dq ++ "fas fa-link" ++ dq ++ "></i>")%string);
        ("html_theme_options", Yaml.Map [
          ("home_page_in_toc", Yaml.Plain "true");
          ("repository_url", Yaml.Plain "https://github.com/ProjectPythia/cmip6-cookbook");
          ("repository_branch", Yaml.Plain "main");
          ("use_issues_button", Yaml.Plain "true");
          ("use_repository_button", Yaml.Plain "true");
          ("use_edit_page_button", Yaml.Plain "true");
          ("github_url", Yaml.Plain "https://github.com/ProjectPythia");
          ("twitter_url", Yaml.Plain "https://twitter.com/project_pythia");
          ("icon_links", Yaml.Seq [
            Yaml.Map [
              ("name", Yaml.Plain "YouTube");
              ("url", Yaml.Plain "https://www.youtube.com/channel/UCoZPBqJal5uKpO8ZiwzavCw");
              ("icon", Yaml.Plain "fab fa-youtube-square");
              ("type", Yaml.Plain "fontawesome")]]);
          ("launch_buttons", Yaml.Map [
            ("binderhub_url", Yaml.Plain "https://binder.projectpythia.org");
            ("notebook_interface", Yaml.Plain "jupyterlab")]);
          ("extra_navbar", Yaml.Quoted (
            "Theme by <a href=" ++ dq ++ "https://projectpythia.org" ++ dq
            ++ ">Project Pythia</a>.<br><br>" ++ nl
            ++ "All code in Pythia Cookbooks is licensed under Apache 2.0. All other non-code content is licensed under <a href="
            ++ dq ++ "https://creativecommons.org/licenses/by/4.0/" ++ dq
            ++ ">Creative Commons BY 4.0 (CC BY 4.0)</a>.<br><br>" ++ nl)%string);
          ("logo_link", Yaml.Plain "https://projectpythia.org");
          ("navbar_links", Yaml.Seq [
            Yaml.Map [("name", Yaml.Plain "Home");
                      ("url", Yaml.Plain "https://projectpythia.org")];
            Yaml.Map [("name", Yaml.Plain "Foundations");
                      ("url", Yaml.Plain "https://foundations.projectpythia.org")];
            Yaml.Map [("name", Yaml.Plain "Cookbooks");
                      ("url", Yaml.Plain "https://cookbooks.projectpythia.org")];
            Yaml.Map [("name", Yaml.Plain "Resources");
                      ("url", Yaml.Plain "https://projectpythia.org/resource-gallery.html")];
            Yaml.Map [("name", Yaml.Plain "Community");
                      ("url", Yaml.Plain "https://projectpythia.org/index.html#join-us")]]);
          ("footer_logos", Yaml.Map [
            ("NCAR", Yaml.Plain "notebooks/images/logos/NCAR-contemp-logo-blue.svg");
            ("Unidata", Yaml.Plain "notebooks/images/logos/Unidata_logo_horizontal_1200x300.svg");
            ("UAlbany", Yaml.Plain "notebooks/images/logos/UAlbany-A2-logo-purple-gold.svg")])])])])].

(** The three settings that form the execution policy. *)
Definition execute_notebooks (cfg : Yaml.node) : option string :=
  match Yaml.get_path ["execute"; "execute_notebooks"] cfg with
  | Some n => Yaml.as_string n
  | None => None
  end.

Definition allow_errors (cfg : Yaml.node) : option bool :=
  match Yaml.get_path ["execute"; "allow_errors"] cfg with
  | Some n => Yaml.as_bool n
  | None => None
  end.

Definition nb_execution_raise_on_error (cfg : Yaml.node) : option bool :=
  match Yaml.get_path ["sphinx"; "config"; "nb_execution_raise_on_error"] cfg with
  | Some n => Yaml.as_bool n
  | None => None
  end.

(** ** Deferred (dask-backed) values

    A lazily opened dataset carries the chain of operations not yet carried out.
    [payload] is the value the chain denotes; it is only handed over by a
    materialising call ([.values], [.compute()]). *)

Inductive Task : Type :=
| TOpenDAP
| TOpenFiles
| TSortby (dim : string)
| TSelNearest
| TSlice
| TResampleMean.

Record Lazy (A : Type) : Type := mkLazy { graph : list Task; payload : A }.

(** One more deferred operation. *)
Definition defer {A B} (t : Task) (f : A -> B) (x : Lazy A) : Lazy B :=
  mkLazy (graph x ++ [t]) (f (payload x)).

(** Picking a variable, or updating an in-memory coordinate: no new task. *)
Definition select {A B} (f : A -> B) (x : Lazy A) : Lazy B :=
  mkLazy (graph x) (f (payload x)).

Definition has_resample (g : list Task) : bool :=
  existsb (fun t => match t with TResampleMean => true | _ => false end) g.

Definition is_remote (g : list Task) : bool :=
  existsb (fun t => match t with TOpenDAP => true | _ => false end) g.

(** ** The two datasets *)

(** The model dataset [esgf_ds]: [tas] laid out by longitude, then latitude,
    then time. *)
Record GridDataset : Type := mkGrid {
  x_axis : option string;
  tas_units : string;
  tas : Labelled Q (Labelled Q TimeSeries)
}.

(** The model series at one grid point ([cmip6_nearest]). *)
Record PointSeries : Type := mkPoint { ps_units : string; ps_tas : TimeSeries }.

(** The observation dataset [arm_ds]: along time, the site position and the
    measured [temp_mean]. *)
Record SiteRow : Type := mkRow { row_lat : Q; row_lon : Q; row_temp_mean : Q }.

Definition SiteDataset : Type := Labelled Timestamp SiteRow.

Definition temp_mean (ds : SiteDataset) : TimeSeries :=
  map (fun p => (fst p, row_temp_mean (snd p))) ds.

(** ** Search objects (pyesgf) *)

Record SearchContext : Type := mkContext {
  endpoint : string;
  distrib : bool;
  constraints : list (string * string)
}.

Record DatasetResult : Type := mkDataset { dataset_id : string }.

Record FileResult : Type := mkFile { opendap_url : option string }.

(** ** Operations of a run and their log *)

Inductive Op : Type :=
| OpClient
| OpSearch (ctx : SearchContext)
| OpGetitem (index : nat)
| OpFileSearch (url : string) (ds : DatasetResult)
| OpOpenDAP (urls : list (option string))
| OpAxis (axis : string)
| OpGetenv (name : string)
| OpDownload (username token : option string) (datastream startdate enddate : string)
| OpOpenFiles (files : list string)
| OpValues (g : list Task)
| OpSelNearest
| OpToDatetimeIndex
| OpAssignTime
| OpSlice (start stop : string)
| OpResample
| OpCompute (g : list Task)
| OpQuantify (units : string)
| OpConvertUnits (target : string)
| OpPlot (label : string).

Record Event : Type := mkEvent { ev_op : Op; ev_exn : option Exn }.

(** A run yields the log of the operations attempted and either a value or
    the exception that ended it. *)
Definition Run (A : Type) : Type := (list Event * result A)%type.

Definition ret {A} (a : A) : Run A := ([], Ok a).

Definition bind {A B} (m : Run A) (k : A -> Run B) : Run B :=
  match m with
  | (t, Ok a) => let (t', r) := k a in (t ++ t', r)
  | (t, Raised e) => (t, Raised e)
  end.

(** One operation with outcome [r]. *)
Definition call {A} (op : Op) (r : result A) : Run A :=
  ([mkEvent op (exn_of r)], r).

(** Python's [try: m except: h]; the notebook has none. *)
Definition try_except {A} (m : Run A) (h : Exn -> Run A) : Run A :=
  match m with
  | (t, Ok a) => (t, Ok a)
  | (t, Raised e) => let (t', r) := h e in (t ++ t', r)
  end.

Notation "x <- m ;; k" := (bind m (fun x => k))
  (at level 61, m at next level, right associativity).

Definition trace {A} (r : Run A) : list Event := fst r.
Definition outcome {A} (r : Run A) : result A := snd r.
Definition ops {A} (r : Run A) : list Op := map ev_op (trace r).

(** ** What a run depends on

    The services the notebook talks to and the library routines whose results
    it only passes along: [assign_time index s] is the assignment
    [s['time'] = index] as xarray carries it out, [pint_defines name] tells
    whether pint's registry holds a unit of that name. *)

Record World : Type := mkWorld {
  start_client : result unit;
  esgf_search : SearchContext -> result (list DatasetResult);
  esgf_file_search : string -> DatasetResult -> result (list FileResult);
  open_opendap : list (option string) -> result GridDataset;
  environ : string -> option string;
  download_data :
    option string -> option string -> string -> string -> string -> result (list string);
  open_files : list string -> result SiteDataset;
  dask_compute : list Task -> result unit;
  cf_sel_nearest : Q -> Q -> GridDataset -> result PointSeries;
  to_datetimeindex : list Timestamp -> result (list Timestamp);
  assign_time : list Timestamp -> TimeSeries -> result TimeSeries;
  pint_defines : string -> bool;
  hvplot : string -> result unit
}.

(** ** The notebook, cell by cell *)

(** [conn = SearchConnection(...)], [ctx = conn.new_context(...)],
    [result = ctx.search()[1]], [files = result.file_context().search()],
    [opendap_urls = [file.opendap_url for file in files]]. *)
Definition esgf_endpoint : string := "https://esgf-node.llnl.gov/esg-search".

Definition ctx : SearchContext :=
  mkContext esgf_endpoint false
    [("facets", "project,experiment_id");
     ("project", "CMIP6");
     ("table_id", "Amon");
     ("institution_id", "E3SM-Project");
     ("experiment_id", "historical");
     ("source_id", "E3SM-1-0");
     ("variable", "tas");
     ("variant_label", "r1i1p1f1")].

Definition cell_search (w : World) : Run (list (option string)) :=
  results <- call (OpSearch ctx) (esgf_search w ctx) ;;
  result <- call (OpGetitem 1) (getitem results 1) ;;
  files <- call (OpFileSearch (endpoint ctx) result)
                (esgf_file_search w (endpoint ctx) result) ;;
  ret (map opendap_url files).

(** [esgf_ds = xr.open_mfdataset(opendap_urls, combine='by_coords', chunks={'time':480})]. *)
Definition cell_open_esgf (w : World) (opendap_urls : list (option string))
  : Run (Lazy GridDataset) :=
  ds <- call (OpOpenDAP opendap_urls) (open_opendap w opendap_urls) ;;
  ret (mkLazy [TOpenDAP] ds).

(** [esgf_ds.cf['X'].name]. *)
Definition cf_axis_name (ds : GridDataset) : result string :=
  match x_axis ds with
  | Some name => Ok name
  | None => Raised (CfKeyError "X")
  end.

Definition with_tas (f : Labelled Q (Labelled Q TimeSeries) -> Labelled Q (Labelled Q TimeSeries))
  (ds : GridDataset) : GridDataset :=
  mkGrid (x_axis ds) (tas_units ds) (f (tas ds)).

(** [ds[c] = f(ds[c])]: the coordinate gets the computed labels; the result of
    the arithmetic carries no attributes, so the dataset has no coordinate
    marked as its X axis any more. *)
Definition assign_lon (f : Q -> Q) (ds : GridDataset) : GridDataset :=
  mkGrid None (tas_units ds) (map_labels f (tas ds)).

(** [lon_coord = esgf_ds.cf['X'].name];
    [esgf_ds[lon_coord] = (esgf_ds[lon_coord] + 180) % 360 - 180];
    [esgf_ds = esgf_ds.sortby(lon_coord)]. *)
Definition cell_clean (esgf_ds : Lazy GridDataset) : Run (Lazy GridDataset) :=
  lon_coord <- call (OpAxis "X") (cf_axis_name (payload esgf_ds)) ;;
  let esgf_ds := select (assign_lon remap_lon) esgf_ds in
  ret (defer (TSortby lon_coord) (with_tas (sortby Qle_bool)) esgf_ds).

Definition datastream : string := "sgpmetE13.b1".
Definition start_date : string := "2013-01-01".
Definition end_date : string := "2013-12-31".

(** [arm_username = os.getenv("ARM_USERNAME")], [arm_password = os.getenv("ARM_PASSWORD")],
    [files = act.discovery.download_data(arm_username, arm_password, datastream,
    start_date, end_date)]. *)
Definition cell_download (w : World) : Run (list string) :=
  arm_username <- call (OpGetenv "ARM_USERNAME") (Ok (environ w "ARM_USERNAME")) ;;
  arm_password <- call (OpGetenv "ARM_PASSWORD") (Ok (environ w "ARM_PASSWORD")) ;;
  call (OpDownload arm_username arm_password datastream start_date end_date)
       (download_data w arm_username arm_password datastream start_date end_date).

(** [arm_ds = xr.open_mfdataset(files, combine='nested', concat_dim='time',
    chunks={'time':86400})]. *)
Definition cell_open_arm (w : World) (files : list string) : Run (Lazy SiteDataset) :=
  ds <- call (OpOpenFiles files) (open_files w files) ;;
  ret (mkLazy [TOpenFiles] ds).

(** [x.values]: the deferred chain is carried out and the numbers handed over. *)
Definition values {A} (w : World) (x : Lazy A) : Run A :=
  _ <- call (OpValues (graph x)) (dask_compute w (graph x)) ;;
  ret (payload x).

(** [x.compute()]. *)
Definition compute {A} (w : World) (x : Lazy A) : Run A :=
  _ <- call (OpCompute (graph x)) (dask_compute w (graph x)) ;;
  ret (payload x).

(** [lat = arm_ds.lat.values[0]], [lon = arm_ds.lon.values[0]]. *)
Definition cell_site (w : World) (arm_ds : Lazy SiteDataset) : Run (Q * Q) :=
  lats <- values w (select (map (fun p => row_lat (snd p))) arm_ds) ;;
  lat <- call (OpGetitem 0) (getitem lats 0) ;;
  lons <- values w (select (map (fun p => row_lon (snd p))) arm_ds) ;;
  lon <- call (OpGetitem 0) (getitem lons 0) ;;
  ret (lat, lon).

(** [cmip6_nearest = esgf_ds.cf.sel(lat=lat, lon=lon, method='nearest')]. *)
Definition cell_nearest (w : World) (lat lon : Q) (esgf_ds : Lazy GridDataset)
  : Run (Lazy PointSeries) :=
  point <- call OpSelNearest (cf_sel_nearest w lat lon (payload esgf_ds)) ;;
  ret (mkLazy (graph esgf_ds ++ [TSelNearest]) point).

(** [cmip6_nearest['time'] = cmip6_nearest.indexes['time'].to_datetimeindex()]. *)
Definition cell_datetime (w : World) (cmip6_nearest : Lazy PointSeries)
  : Run (Lazy PointSeries) :=
  let point := payload cmip6_nearest in
  index <- call OpToDatetimeIndex (to_datetimeindex w (labels (ps_tas point))) ;;
  s <- call OpAssignTime (assign_time w index (ps_tas point)) ;;
  ret (select (fun _ => mkPoint (ps_units point) s) cmip6_nearest).

(** [cmip6_nearest = cmip6_nearest.sel(time=slice(start_date, end_date))]. *)
Definition cell_slice (cmip6_nearest : Lazy PointSeries) : Run (Lazy PointSeries) :=
  let point := payload cmip6_nearest in
  s <- call (OpSlice start_date end_date)
            (sel_time_slice start_date end_date (ps_tas point)) ;;
  ret (defer TSlice (fun _ => mkPoint (ps_units point) s) cmip6_nearest).

(** [arm_ds = arm_ds.sortby('time')];
    [sgp_monthly_mean_temperature = arm_ds.temp_mean.resample(time='1M').mean().compute()]. *)
Definition cell_monthly_mean (w : World) (arm_ds : Lazy SiteDataset)
  : Run (Labelled Timestamp (option Q)) :=
  let arm_ds := defer (TSortby "time") (sortby ts_leb) arm_ds in
  monthly <- call OpResample (resample_1M_mean (temp_mean (payload arm_ds))) ;;
  compute w (defer TResampleMean (fun _ => monthly) arm_ds).

(** [cmip6_monthly_mean_temperature = cmip6_nearest.tas.compute().metpy.quantify()]. *)
Definition cell_quantify (w : World) (cmip6_nearest : Lazy PointSeries)
  : Run Units.Quantity :=
  tas <- compute w (select ps_tas cmip6_nearest) ;;
  let units := ps_units (payload cmip6_nearest) in
  call (OpQuantify units) (Units.quantify_checked (pint_defines w) units tas).

(** [cmip6_monthly_mean_temperature =
     cmip6_monthly_mean_temperature.metpy.convert_units('degC')]. *)
Definition cell_convert (q : Units.Quantity) : Run Units.Quantity :=
  call (OpConvertUnits "degC") (Units.convert_units "degC" q).

Record Plot : Type := mkPlot {
  plot_label : string;
  plot_points : Labelled Timestamp (option Q)
}.

Definition esgf_label : string := "CESM2 Monthly Average Temperature at Closest Gridpoint".
Definition arm_label : string := "Observed Monthly Average Temperature at ARM SGP Site".

(** [esgf_plot = cmip6_monthly_mean_temperature.hvplot(label=...)],
    [arm_plot = sgp_monthly_mean_temperature.hvplot(label=...)],
    [esgf_plot * arm_plot]. *)
Definition cell_plot (w : World) (cmip6 : Units.Quantity)
  (sgp : Labelled Timestamp (option Q)) : Run (list Plot) :=
  _ <- call (OpPlot esgf_label) (hvplot w esgf_label) ;;
  let esgf_plot :=
    mkPlot esgf_label (map (fun p => (fst p, Some (snd p))) (Units.q_series cmip6)) in
  _ <- call (OpPlot arm_label) (hvplot w arm_label) ;;
  let arm_plot := mkPlot arm_label sgp in
  ret [esgf_plot; arm_plot].

(** The whole notebook, top to bottom.  The import cell only sets display and
    warning options and is left out; the first operation is [client = Client()]. *)
Definition notebook (w : World) : Run (list Plot) :=
  _ <- call OpClient (start_client w) ;;
  opendap_urls <- cell_search w ;;
  esgf_ds <- cell_open_esgf w opendap_urls ;;
  esgf_ds <- cell_clean esgf_ds ;;
  files <- cell_download w ;;
  arm_ds <- cell_open_arm w files ;;
  site <- cell_site w arm_ds ;;
  cmip6_nearest <- cell_nearest w (fst site) (snd site) esgf_ds ;;
  cmip6_nearest <- cell_datetime w cmip6_nearest ;;
  cmip6_nearest <- cell_slice cmip6_nearest ;;
  sgp_monthly_mean_temperature <- cell_monthly_mean w arm_ds ;;
  cmip6_monthly_mean_temperature <- cell_quantify w cmip6_nearest ;;
  cmip6_monthly_mean_temperature <- cell_convert cmip6_monthly_mean_temperature ;;
  cell_plot w cmip6_monthly_mean_temperature sgp_monthly_mean_temperature.

(** ** Classifying the logged operations *)

(** Calls that carry out a deferred chain and wait for its result. *)
Definition is_blocking (op : Op) : bool :=
  match op with
  | OpValues _ | OpCompute _ => true
  | _ => false
  end.

Definition is_compute (op : Op) : bool :=
  match op with
  | OpCompute _ => true
  | _ => false
  end.

Definition computes_resampling (op : Op) : bool :=
  match op with
  | OpCompute g => has_resample g
  | _ => false
  end.

(** The [search()] calls, on the dataset context and on a file context; each
    sends its queries to the ESGF search endpoint (see [search_http_queries]). *)
Definition is_search (op : Op) : bool :=
  match op with
  | OpSearch _ | OpFileSearch _ _ => true
  | _ => false
  end.

(** Operations that go over the network: searches, the OPeNDAP open, the ARM
    download, and materialising a chain rooted in remote files. *)
Definition is_network (op : Op) : bool :=
  match op with
  | OpSearch _ | OpFileSearch _ _ | OpOpenDAP _ | OpDownload _ _ _ _ _ => true
  | OpValues g | OpCompute g => is_remote g
  | _ => false
  end.

Definition is_open (op : Op) : bool :=
  match op with
  | OpOpenDAP _ | OpOpenFiles _ => true
  | _ => false
  end.

(** ** HTTP queries of a search

    [search()] is pyesgf's, which is not among the sources.  As the library has
    it, the context first asks the endpoint for the number of hits (a query
    with [limit=0]); the result set then fetches the results in batches of
    [batch_size], the first one at once when there is a hit, another when one
    of its indexes is first read, and none twice. *)

Definition batch_size : nat := 50.

(** The queries of one [search()] whose results are read at the indexes up to
    [last]. *)
Definition search_http_queries (last : nat) : nat :=
  1 + (last / batch_size + 1).

(** The queries behind a logged call.  [ctx.search()[1]] reads index 1; the
    comprehension over [files] reads every index up to the first one out of
    range, which is the number of files.  For a search that failed the number
    is not known. *)
Definition http_queries (w : World) (op : Op) : option nat :=
  match op with
  | OpSearch c =>
      match esgf_search w c with
      | Ok _ => Some (search_http_queries 1)
      | Raised _ => None
      end
  | OpFileSearch url ds =>
      match esgf_file_search w url ds with
      | Ok files => Some (search_http_queries (List.length files))
      | Raised _ => None
      end
  | _ => Some 0%nat
  end.

Fixpoint total_http_queries (w : World) (l : list Op) : option nat :=
  match l with
  | [] => Some 0%nat
  | op :: l' =>
      match http_queries w op, total_http_queries w l' with
      | Some a, Some b => Some (a + b)%nat
      | _, _ => None
      end
  end.

(** ** Predicates used in the statements *)

(** A timestamp that falls on a day from [first] to [last], both included. *)
Definition within_dates (first last : Date) (t : Timestamp) : Prop :=
  date_leb first (date_of t) = true /\ date_leb (date_of t) last = true.

(** The calendar months, counted from year 0, of the values of a resampled series. *)
Definition months_of (out : Labelled Timestamp (option Q)) : list Z :=
  map (fun p => month_index (fst p)) out.

(** A log without a failure, and a run whose outcome tells what its log holds:
    no failure when it returns, and when it raises, that one failure, last. *)
Definition clean (t : list Event) : Prop := Forall (fun ev => ev_exn ev = None) t.

Definition faithful {A : Type} (r : Run A) : Prop :=
  match outcome r with
  | Ok _ => clean (trace r)
  | Raised e =>
      exists before op, trace r = before ++ [mkEvent op (Some e)] /\ clean before
  end.

(** Two blocking calls, each the computation of a monthly resampling, and
    nothing else materialised. *)
Definition two_resampling_triggers (l : list Op) : Prop :=
  (exists g_arm g_cmip6,
      filter is_compute l = [OpCompute g_arm; OpCompute g_cmip6] /\
      has_resample g_arm = true /\ has_resample g_cmip6 = true) /\
  filter is_blocking l = filter is_compute l.

Definition is_file_search (op : Op) : bool :=
  match op with
  | OpFileSearch _ _ => true
  | _ => false
  end.

(** A value on the binary grid of step [2^g]. *)
Definition on_grid (g : Z) (v : Q) : Prop :=
  exists j : Z, (v == inject_Z j * pow2 g)%Q.

(** ** A small concrete world

    Two search hits, a four-column grid on [0, 360), a handful of site
    observations in 2013 (out of order, with February and April missing). *)

Definition ts (y m d : Z) (hour : Z) : Timestamp :=
  mkTimestamp y m d (hour * 3600000000000).

Definition demo_series (base : Q) : TimeSeries :=
  [(ts 2012 12 16 12, base);
   (ts 2013 1 16 12, (base + 1)%Q);
   (ts 2013 7 16 12, (base + 25)%Q);
   (ts 2013 12 16 12, (base + 2)%Q);
   (ts 2014 1 16 12, (base - 1)%Q)].

Definition demo_grid : GridDataset :=
  mkGrid (Some "lon") "K"
    [(0%Q, [(30%Q, demo_series 280); (40%Q, demo_series 275)]);
     (90%Q, [(30%Q, demo_series 281); (40%Q, demo_series 276)]);
     (180%Q, [(30%Q, demo_series 282); (40%Q, demo_series 277)]);
     (270%Q, [(30%Q, demo_series 283); (40%Q, demo_series 278)])].

Definition demo_site : SiteDataset :=
  let row := mkRow (36605 # 1000) (- (97485 # 1000)) in
  [(ts 2013 3 1 0, row 10%Q);
   (ts 2013 1 1 0, row 2%Q);
   (ts 2013 1 15 6, row 4%Q);
   (ts 2013 5 20 18, row 21%Q);
   (ts 2013 3 1 12, row 12%Q)].

Definition Qabs_diff (a b : Q) : Q := Qabs (a - b).

(** The slab whose label is closest to [target] (the first one on a tie). *)
Fixpoint nearest {A} (target : Q) (l : Labelled Q A) : option (Q * A) :=
  match l with
  | [] => None
  | p :: l' =>
      match nearest target l' with
      | None => Some p
      | Some q =>
          if Qle_bool (Qabs_diff (fst p) target) (Qabs_diff (fst q) target)
          then Some p else Some q
      end
  end.

Definition demo_sel (lat lon : Q) (ds : GridDataset) : result PointSeries :=
  match nearest lon (tas ds) with
  | Some (_, column) =>
      match nearest lat column with
      | Some (_, s) => Ok (mkPoint (tas_units ds) s)
      | None => Raised (KeyError "lat")
      end
  | None => Raised (KeyError "lon")
  end.

(** A coordinate assignment that refuses an index of another length, with a
    [ValueError] in words of its own. *)
Definition demo_assign_time (index : list Timestamp) (s : TimeSeries) : result TimeSeries :=
  if Nat.eqb (List.length index) (List.length s)
  then Ok (combine index (map snd s))
  else Raised (ValueError "conflicting sizes for dimension 'time'").

(** An environment with both credentials set. *)
Definition demo_environ (name : string) : option string :=
  if String.eqb name "ARM_USERNAME" then Some "someone"
  else if String.eqb name "ARM_PASSWORD" then Some "token"
  else None.

(** A download service that raises when a credential is absent. *)
Definition demo_download (username token : option string)
  (stream startdate enddate : string) : result (list string) :=
  match username, token with
  | Some _, Some _ => Ok ["sgpmetE13.b1.20130101.000000.cdf"]
  | _, _ => Raised (TypeError "sequence item: expected str instance, NoneType found")
  end.

Definition demo_hits : list DatasetResult :=
  [mkDataset "CMIP6.CMIP.E3SM-Project.E3SM-1-0.historical.r1i1p1f1.Amon.tas.gr.v20190730";
   mkDataset "CMIP6.CMIP.E3SM-Project.E3SM-1-0.historical.r1i1p1f1.Amon.tas.gr.v20190913"].

Definition demo_files : list FileResult :=
  [mkFile (Some "https://esgf-data2.llnl.gov/thredds/dodsC/tas_Amon_E3SM-1-0_2000-2014.nc")].

Definition demo_world : World :=
  mkWorld (Ok tt)
    (fun _ => Ok demo_hits)
    (fun _ _ => Ok demo_files)
    (fun _ => Ok demo_grid)
    demo_environ
    demo_download
    (fun _ => Ok demo_site)
    (fun _ => Ok tt)
    demo_sel
    (fun index => Ok index)
    demo_assign_time
    (fun _ => false)
    (fun _ => Ok tt).

(** The figure the sample world ends with. *)
Definition demo_figure : list Plot :=
  Eval vm_compute in
    match outcome (notebook demo_world) with
    | Ok fig => fig
    | Raised _ => []
    end.

(** The same world with the two credentials unset. *)
Definition no_credentials_world : World :=
  mkWorld (Ok tt)
    (fun _ => Ok demo_hits)
    (fun _ _ => Ok demo_files)
    (fun _ => Ok demo_grid)
    (fun _ => None)
    demo_download
    (fun _ => Ok demo_site)
    (fun _ => Ok tt)
    demo_sel
    (fun index => Ok index)
    demo_assign_time
    (fun _ => false)
    (fun _ => Ok tt).

(** The same world with a time index that comes back one entry short. *)
Definition short_index_world : World :=
  mkWorld (Ok tt)
    (fun _ => Ok demo_hits)
    (fun _ _ => Ok demo_files)
    (fun _ => Ok demo_grid)
    demo_environ
    demo_download
    (fun _ => Ok demo_site)
    (fun _ => Ok tt)
    demo_sel
    (fun index => Ok (tl index))
    demo_assign_time
    (fun _ => false)
    (fun _ => Ok tt).

(** The same world with a single search hit. *)
Definition single_hit_world : World :=
  mkWorld (Ok tt)
    (fun _ => Ok [mkDataset "CMIP6.CMIP.E3SM-Project.E3SM-1-0.historical.r1i1p1f1.Amon.tas.gr.v20190730"])
    (fun _ _ => Ok demo_files)
    (fun _ => Ok demo_grid)
    demo_environ
    demo_download
    (fun _ => Ok demo_site)
    (fun _ => Ok tt)
    demo_sel
    (fun index => Ok index)
    demo_assign_time
    (fun _ => false)
    (fun _ => Ok tt).

(** The same world with an observation file that holds no row. *)
Definition empty_site_world : World :=
  mkWorld (Ok tt)
    (fun _ => Ok demo_hits)
    (fun _ _ => Ok demo_files)
    (fun _ => Ok demo_grid)
    demo_environ
    demo_download
    (fun _ => Ok [])
    (fun _ => Ok tt)
    demo_sel
    (fun index => Ok index)
    demo_assign_time
    (fun _ => false)
    (fun _ => Ok tt).

(** The same world with a model variable whose [units] attribute names no
    unit. *)
Definition odd_units_world : World :=
  mkWorld (Ok tt)
    (fun _ => Ok demo_hits)
    (fun _ _ => Ok demo_files)
    (fun _ => Ok (mkGrid (x_axis demo_grid) "not_a_unit" (tas demo_grid)))
    demo_environ
    demo_download
    (fun _ => Ok demo_site)
    (fun _ => Ok tt)
    demo_sel
    (fun index => Ok index)
    demo_assign_time
    (fun _ => false)
    (fun _ => Ok tt).

(** ** The script as a list of steps *)

(** The name of the call behind a logged operation. *)
Definition op_name (op : Op) : string :=
  match op with
  | OpClient => "Client"
  | OpSearch _ => "search"
  | OpGetitem _ => "getitem"
  | OpFileSearch _ _ => "file_context.search"
  | OpOpenDAP _ => "open_mfdataset"
  | OpAxis _ => "cf.axis"
  | OpGetenv _ => "getenv"
  | OpDownload _ _ _ _ _ => "download_data"
  | OpOpenFiles _ => "open_mfdataset"
  | OpValues _ => "values"
  | OpSelNearest => "cf.sel"
  | OpToDatetimeIndex => "to_datetimeindex"
  | OpAssignTime => "setitem"
  | OpSlice _ _ => "sel"
  | OpResample => "resample"
  | OpCompute _ => "compute"
  | OpQuantify _ => "quantify"
  | OpConvertUnits _ => "convert_units"
  | OpPlot _ => "hvplot"
  end.

(** The calls of the notebook in the order of its cells. *)
Definition script : list string :=
  ["Client";
   "search"; "getitem"; "file_context.search";
   "open_mfdataset";
   "cf.axis";
   "getenv"; "getenv"; "download_data";
   "open_mfdataset";
   "values"; "getitem"; "values"; "getitem";
   "cf.sel";
   "to_datetimeindex"; "setitem";
   "sel";
   "resample"; "compute";
   "compute"; "quantify";
   "convert_units";
   "hvplot"; "hvplot"].

(** Steps that have no way to fail in the notebook. *)
Definition cannot_fail (op : Op) : bool :=
  match op with
  | OpGetenv _ | OpResample => true
  | _ => false
  end.

(** The operations of a log that went through. *)
Definition succeeded (ev : Event) : bool :=
  match ev_exn ev with
  | None => true
  | Some _ => false
  end.

Definition completed_ops {A} (r : Run A) : list Op :=
  map ev_op (filter succeeded (trace r)).

(** * Properties *)

Unset Implicit Arguments.

(** ** float64 rounding *)

Lemma pow2_pos (e : Z) : (0 < pow2 e)%Q.
Proof. apply Qpower_0_lt. reflexivity. Qed.

Lemma pow2_add (a b : Z) : (pow2 (a + b) == pow2 a * pow2 b)%Q.
Proof. apply Qpower_plus. discriminate. Qed.

Lemma pow2_sub (a b : Z) : (pow2 (a - b) == pow2 a / pow2 b)%Q.
Proof. apply Qpower_minus. discriminate. Qed.

Lemma pow2_lt (a b : Z) : (a < b)%Z -> (pow2 a < pow2 b)%Q.
Proof. intros H. apply Qpower_lt_compat_l; [exact H | reflexivity]. Qed.

Lemma pow2_le (a b : Z) : (a <= b)%Z -> (pow2 a <= pow2 b)%Q.
Proof. intros H. apply Qpower_le_compat_l; [exact H | discriminate]. Qed.

Lemma pow2_lt_inv (a b : Z) : (pow2 a < pow2 b)%Q -> (a < b)%Z.
Proof. intros H. apply (Qpower_lt_compat_l_inv 2); [exact H | reflexivity]. Qed.

Lemma pow2_Z (n : Z) : (0 <= n)%Z -> (inject_Z (2 ^ n) == pow2 n)%Q.
Proof. intros H. apply (Zpower_Qpower 2 n H). Qed.

Lemma pow2_succ (a : Z) : (pow2 (a + 1) == 2 * pow2 a)%Q.
Proof. rewrite pow2_add. change (pow2 1) with 2%Q. ring. Qed.

Lemma Z_log2_bounds (n : Z) :
  (0 < n)%Z ->
  (pow2 (Z.log2 n) <= inject_Z n)%Q /\ (inject_Z n < 2 * pow2 (Z.log2 n))%Q.
Proof.
  intros H. destruct (Z.log2_spec n H) as [Hlo Hhi].
  pose proof (Z.log2_nonneg n) as Hnn.
  split.
  - rewrite <- pow2_Z by exact Hnn. now rewrite <- Zle_Qle.
  - rewrite <- pow2_succ, <- pow2_Z by lia.
    rewrite <- Zlt_Qlt. now rewrite <- Z.add_1_r in Hhi.
Qed.

Lemma log2_floor_spec (q : Q) :
  (0 < q)%Q ->
  (pow2 (log2_floor q) <= q)%Q /\ (q < pow2 (log2_floor q + 1))%Q.
Proof.
  intros Hq. unfold log2_floor.
  destruct q as [n d].
  assert (Hn : (0 < n)%Z) by (unfold Qlt in Hq; simpl in Hq; lia).
  cbn [Qnum Qden].
  destruct (Z_log2_bounds n Hn) as [A1 A2].
  destruct (Z_log2_bounds (Zpos d) (Pos2Z.is_pos d)) as [B1 B2].
  set (a := Z.log2 n) in *. set (b := Z.log2 (Z.pos d)) in *.
  pose proof (pow2_pos a) as Pa. pose proof (pow2_pos b) as Pb.
  pose proof (pow2_pos (a - b)) as Pl.
  assert (Hl : (pow2 (a - b) * pow2 b == pow2 a)%Q).
  { rewrite pow2_sub. field. lra. }
  assert (Hqd : ((n # d) * inject_Z (Z.pos d) == inject_Z n)%Q).
  { rewrite (Qmake_Qdiv n d). field. intros E. rewrite E in B1. lra. }
  set (q := (n # d)) in *. set (N := inject_Z n) in *. set (D := inject_Z (Z.pos d)) in *.
  set (X := pow2 (a - b)) in *. set (A := pow2 a) in *. set (B := pow2 b) in *.
  destruct (Qle_bool X q) eqn:E.
  - apply Qle_bool_iff in E. split; [exact E|].
    rewrite pow2_succ. fold X. nra.
  - assert (E' : (q < X)%Q).
    { destruct (Qlt_le_dec q X) as [H|H]; [exact H|].
      apply Qle_bool_iff in H. congruence. }
    replace (a - b - 1 + 1)%Z with (a - b)%Z by ring. fold X.
    split; [|exact E'].
    assert (Hh : (2 * pow2 (a - b - 1) == X)%Q).
    { rewrite <- pow2_succ. replace (a - b - 1 + 1)%Z with (a - b)%Z by ring. reflexivity. }
    pose proof (pow2_pos (a - b - 1)) as Ph.
    set (Y := pow2 (a - b - 1)) in *. nra.
Qed.

Lemma log2_floor_unique (q : Q) (e : Z) :
  (pow2 e <= q)%Q -> (q < pow2 (e + 1))%Q -> log2_floor q = e.
Proof.
  intros Hlo Hhi.
  assert (Hq : (0 < q)%Q) by (pose proof (pow2_pos e); lra).
  destruct (log2_floor_spec q Hq) as [Slo Shi].
  assert (H1 : (log2_floor q < e + 1)%Z) by (apply pow2_lt_inv; lra).
  assert (H2 : (e < log2_floor q + 1)%Z) by (apply pow2_lt_inv; lra).
  lia.
Qed.

Lemma log2_floor_lt (q : Q) (n : Z) :
  (0 < q)%Q -> (q < pow2 n)%Q -> (log2_floor q < n)%Z.
Proof.
  intros Hq Hn. destruct (log2_floor_spec q Hq) as [Slo _].
  apply pow2_lt_inv. lra.
Qed.

(** Rounding to the nearest integer. *)

Lemma rne_cases (t : Q) :
  let f := Qfloor t in
  (rne t = f /\ (t - inject_Z f <= 1 # 2)%Q) \/
  (rne t = (f + 1)%Z /\ (1 # 2 <= t - inject_Z f)%Q).
Proof.
  intros f. unfold rne. fold f.
  destruct (t - inject_Z f ?= 1 # 2)%Q eqn:E.
  - apply Qeq_alt in E. destruct (Z.even f); [left | right]; split; trivial; lra.
  - apply Qlt_alt in E. left. split; [reflexivity | lra].
  - apply Qgt_alt in E. right. split; [reflexivity | lra].
Qed.

Lemma floor_bounds (t : Q) :
  (inject_Z (Qfloor t) <= t)%Q /\ (t < inject_Z (Qfloor t) + 1)%Q.
Proof.
  split; [apply Qfloor_le|].
  pose proof (Qlt_floor t) as H. rewrite inject_Z_plus in H. exact H.
Qed.

Lemma rne_lower (t : Q) (n : Z) : (inject_Z n <= t)%Q -> (n <= rne t)%Z.
Proof.
  intros H. destruct (floor_bounds t) as [F1 F2].
  assert (Hn : (n <= Qfloor t)%Z).
  { assert (Hlt : (inject_Z n < inject_Z (Qfloor t + 1))%Q)
      by (rewrite inject_Z_plus; change (inject_Z 1) with 1%Q; lra).
    rewrite <- Zlt_Qlt in Hlt. lia. }
  destruct (rne_cases t) as [[-> _]|[-> _]]; lia.
Qed.

Lemma rne_upper (t : Q) (m : Z) : (t <= inject_Z m)%Q -> (rne t <= m)%Z.
Proof.
  intros H. destruct (floor_bounds t) as [F1 F2].
  destruct (rne_cases t) as [[-> _]|[-> Hr]].
  - rewrite Zle_Qle. lra.
  - assert (Hlt : (inject_Z (Qfloor t) < inject_Z m)%Q) by lra.
    rewrite <- Zlt_Qlt in Hlt. lia.
Qed.

Lemma rne_error (t : Q) : (Qabs (inject_Z (rne t) - t) <= 1 # 2)%Q.
Proof.
  destruct (floor_bounds t) as [F1 F2].
  apply Qabs_case; intros _;
    destruct (rne_cases t) as [[-> Hr]|[-> Hr]];
    rewrite ?inject_Z_plus; change (inject_Z 1) with 1%Q; lra.
Qed.

Lemma rne_integer (t : Q) (k : Z) : (t == inject_Z k)%Q -> rne t = k.
Proof.
  intros H. apply Z.le_antisymm.
  - apply rne_upper. lra.
  - apply rne_lower. lra.
Qed.

(** Rounding to the nearest float64. *)

Lemma round64_eq (q : Q) :
  ~ (q == 0)%Q ->
  (round64 q == inject_Z (rne (q / pow2 (ulp_exp q))) * pow2 (ulp_exp q))%Q.
Proof.
  intros H. unfold round64.
  destruct (Qeq_bool q 0) eqn:E.
  - apply Qeq_bool_iff in E. contradiction.
  - apply Qred_correct.
Qed.

Lemma round64_zero (q : Q) : (q == 0)%Q -> (round64 q == 0)%Q.
Proof.
  intros H. unfold round64. apply Qeq_bool_iff in H. rewrite H. reflexivity.
Qed.

(** A multiple of a power of two no finer than the last place is kept. *)
Lemma round64_exact (q : Q) (k g : Z) :
  (q == inject_Z k * pow2 g)%Q -> (~ (q == 0)%Q -> (ulp_exp q <= g)%Z) ->
  (round64 q == q)%Q.
Proof.
  intros Hq Hg.
  destruct (Qeq_dec q 0) as [Hz|Hz]; [rewrite Hz at 2; now apply round64_zero|].
  specialize (Hg Hz).
  rewrite (round64_eq q Hz).
  set (u := ulp_exp q) in *.
  pose proof (pow2_pos u) as Pu.
  assert (Hs : (pow2 g == inject_Z (2 ^ (g - u)) * pow2 u)%Q).
  { rewrite pow2_Z by lia. rewrite <- pow2_add. now replace (g - u + u)%Z with g by ring. }
  assert (Ht : (q / pow2 u == inject_Z (k * 2 ^ (g - u)))%Q).
  { rewrite inject_Z_mult, Hq, Hs. field. lra. }
  rewrite (rne_integer _ _ Ht), inject_Z_mult, Hq, Hs. ring.
Qed.

(** In the binade [2^e, 2^(e+1)) the last place is 2^(e-52). *)
Lemma ulp_exp_binade (q : Q) (e : Z) :
  (-1022 <= e)%Z -> (pow2 e <= q)%Q -> (q < pow2 (e + 1))%Q ->
  ulp_exp q = (e - 52)%Z.
Proof.
  intros He Hlo Hhi. unfold ulp_exp.
  assert (Hq : (0 < q)%Q) by (pose proof (pow2_pos e); lra).
  assert (Ha : log2_floor (Qabs q) = e).
  { apply log2_floor_unique; rewrite Qabs_pos; lra. }
  rewrite Ha. lia.
Qed.

Lemma ulp_exp_below (q : Q) (n : Z) :
  ~ (q == 0)%Q -> (Qabs q < pow2 n)%Q -> (-1021 <= n)%Z -> (ulp_exp q <= n - 53)%Z.
Proof.
  intros Hz Hn Hmin. unfold ulp_exp.
  assert (Hq : (0 < Qabs q)%Q).
  { pose proof (Qabs_nonneg q). destruct (Qeq_dec (Qabs q) 0) as [E|E]; [|lra].
    exfalso. apply Hz. revert E. apply Qabs_case; intros; lra. }
  pose proof (log2_floor_lt (Qabs q) n Hq Hn). lia.
Qed.

(** Rounding within a binade: the result is on the binade's grid, between any
    two grid points that enclose the argument, and within half a step of it. *)
Lemma round64_binade (q : Q) (e : Z) (lo hi : Z) :
  (-1022 <= e)%Z -> (pow2 e <= q)%Q -> (q < pow2 (e + 1))%Q ->
  (inject_Z lo * pow2 (e - 52) <= q)%Q -> (q <= inject_Z hi * pow2 (e - 52))%Q ->
  exists k : Z,
    (round64 q == inject_Z k * pow2 (e - 52))%Q /\ (lo <= k <= hi)%Z /\
    (Qabs (round64 q - q) <= pow2 (e - 53))%Q.
Proof.
  intros He Hlo Hhi Hl Hh.
  assert (Hz : ~ (q == 0)%Q) by (pose proof (pow2_pos e); lra).
  pose proof (round64_eq q Hz) as Hr.
  rewrite (ulp_exp_binade q e He Hlo Hhi) in Hr.
  set (u := (e - 52)%Z) in *. pose proof (pow2_pos u) as Pu.
  set (t := (q / pow2 u)%Q) in *.
  assert (Hq : (q == t * pow2 u)%Q) by (unfold t; field; lra).
  exists (rne t). split; [exact Hr|]. split.
  - split; [apply rne_lower | apply rne_upper].
    + apply Qmult_le_r with (z := pow2 u); [exact Pu | lra].
    + apply Qmult_le_r with (z := pow2 u); [exact Pu | lra].
  - assert (Hhalf : (pow2 (e - 53) == (1 # 2) * pow2 u)%Q).
    { assert (H2 : (pow2 u == 2 * pow2 (e - 53))%Q).
      { rewrite <- pow2_succ. unfold u. now replace (e - 53 + 1)%Z with (e - 52)%Z by ring. }
      rewrite H2. ring. }
    rewrite Hhalf, Hr.
    assert (Hd : (inject_Z (rne t) * pow2 u - q == (inject_Z (rne t) - t) * pow2 u)%Q)
      by (rewrite Hq at 1; ring).
    rewrite Hd, Qabs_Qmult, (Qabs_pos (pow2 u)) by lra.
    apply Qmult_le_compat_r; [apply rne_error | lra].
Qed.

(** ** Longitude remapping *)

Lemma grid_scale (k : Z) (g g' : Z) :
  (g' <= g)%Z ->
  (inject_Z k * pow2 g == inject_Z (k * 2 ^ (g - g')) * pow2 g')%Q.
Proof.
  intros H. rewrite inject_Z_mult, pow2_Z by lia.
  rewrite <- Qmult_assoc, <- pow2_add. now replace (g - g' + g')%Z with g by ring.
Qed.

(** The sum [v + 180] for a longitude of [[0, 360)]: it is rounded to a multiple
    of 2^-45 between 180 and 540, at most 2^-44 away. *)
Lemma round64_sum_range (q : Q) :
  (180 <= q)%Q -> (q < 540)%Q ->
  exists K : Z,
    (round64 q == inject_Z K * pow2 (-45))%Q /\
    (180 <= round64 q)%Q /\ (round64 q <= 540)%Q /\
    (Qabs (round64 q - q) <= pow2 (-44))%Q.
Proof.
  intros Hlo Hhi.
  destruct (Qlt_le_dec q 256) as [H1|H1]; [|destruct (Qlt_le_dec q 512) as [H2|H2]].
  - destruct (round64_binade q 7 (180 * 2 ^ 45) (256 * 2 ^ 45)) as (k & Hk & Hb & He);
      try (change (pow2 7) with 128%Q; change (pow2 (7 + 1)) with 256%Q); try lra; try lia.
    { assert (E : (inject_Z (180 * 2 ^ 45) * pow2 (7 - 52) == 180)%Q) by reflexivity. lra. }
    { assert (E : (inject_Z (256 * 2 ^ 45) * pow2 (7 - 52) == 256)%Q) by reflexivity. lra. }
    exists k. change (7 - 52)%Z with (-45)%Z in *. split; [exact Hk|].
    assert (A : (inject_Z (180 * 2 ^ 45) * pow2 (-45) == 180)%Q) by reflexivity.
    assert (B : (inject_Z (256 * 2 ^ 45) * pow2 (-45) == 256)%Q) by reflexivity.
    destruct Hb as [Hb1 Hb2]. rewrite Zle_Qle in Hb1, Hb2.
    pose proof (pow2_pos (-45)) as P. set (p := pow2 (-45)) in *.
    assert (E' : (pow2 (7 - 53) <= pow2 (-44))%Q) by (apply pow2_le; lia).
    repeat split; [rewrite Hk; nra | rewrite Hk; nra | lra].
  - destruct (round64_binade q 8 (256 * 2 ^ 44) (512 * 2 ^ 44)) as (k & Hk & Hb & He);
      try (change (pow2 8) with 256%Q; change (pow2 (8 + 1)) with 512%Q); try lra; try lia.
    { assert (E : (inject_Z (256 * 2 ^ 44) * pow2 (8 - 52) == 256)%Q) by reflexivity. lra. }
    { assert (E : (inject_Z (512 * 2 ^ 44) * pow2 (8 - 52) == 512)%Q) by reflexivity. lra. }
    exists (k * 2 ^ (-44 - -45))%Z. change (8 - 52)%Z with (-44)%Z in *.
    split; [rewrite Hk; apply grid_scale; lia|].
    assert (A : (inject_Z (256 * 2 ^ 44) * pow2 (-44) == 256)%Q) by reflexivity.
    assert (B : (inject_Z (512 * 2 ^ 44) * pow2 (-44) == 512)%Q) by reflexivity.
    destruct Hb as [Hb1 Hb2]. rewrite Zle_Qle in Hb1, Hb2.
    pose proof (pow2_pos (-44)) as P. set (p := pow2 (-44)) in *.
    assert (E' : (pow2 (8 - 53) <= p)%Q) by (apply pow2_le; lia).
    repeat split; [rewrite Hk; nra | rewrite Hk; nra | lra].
  - destruct (round64_binade q 9 (512 * 2 ^ 43) (540 * 2 ^ 43)) as (k & Hk & Hb & He);
      try (change (pow2 9) with 512%Q; change (pow2 (9 + 1)) with 1024%Q); try lra; try lia.
    { assert (E : (inject_Z (512 * 2 ^ 43) * pow2 (9 - 52) == 512)%Q) by reflexivity. lra. }
    { assert (E : (inject_Z (540 * 2 ^ 43) * pow2 (9 - 52) == 540)%Q) by reflexivity. lra. }
    exists (k * 2 ^ (-43 - -45))%Z. change (9 - 52)%Z with (-43)%Z in *.
    split; [rewrite Hk; apply grid_scale; lia|].
    assert (A : (inject_Z (512 * 2 ^ 43) * pow2 (-43) == 512)%Q) by reflexivity.
    assert (B : (inject_Z (540 * 2 ^ 43) * pow2 (-43) == 540)%Q) by reflexivity.
    destruct Hb as [Hb1 Hb2]. rewrite Zle_Qle in Hb1, Hb2.
    pose proof (pow2_pos (-43)) as P. set (p := pow2 (-43)) in *.
    change (pow2 (9 - 53)) with (pow2 (-44)) in He.
    repeat split; [rewrite Hk; nra | rewrite Hk; nra | lra].
Qed.

(** The remainder by 360 of a value between 180 and 540 is exact: the value
    itself below 360, the value less 360 from there on. *)
Lemma f64_mod_360 (x : Q) :
  (180 <= x)%Q -> (x <= 540)%Q ->
  exists j : Z,
    (j = 0 \/ j = 1)%Z /\
    (f64_mod x 360 == x - 360 * inject_Z j)%Q /\
    (0 <= f64_mod x 360)%Q /\ (f64_mod x 360 < 360)%Q.
Proof.
  intros Hlo Hhi.
  assert (Hx : (x == (x / 360) * 360)%Q) by (field; discriminate).
  assert (Hpos : Qle_bool 0 (x / 360) = true).
  { apply Qle_bool_iff. apply Qle_shift_div_l; [reflexivity | lra]. }
  destruct (floor_bounds (x / 360)) as [F1 F2].
  set (j := Qfloor (x / 360)) in *.
  assert (Hj : (j = 0 \/ j = 1)%Z).
  { assert (H1 : (inject_Z j < inject_Z 2)%Q) by (change (inject_Z 2) with 2%Q; lra).
    assert (H2 : (inject_Z (-1) < inject_Z j)%Q) by (change (inject_Z (-1)) with (-1)%Q; lra).
    rewrite <- Zlt_Qlt in H1, H2. lia. }
  assert (Hm : (fmod x 360 == x - 360 * inject_Z j)%Q).
  { unfold fmod, Qtrunc. rewrite Hpos. fold j. apply Qred_correct. }
  assert (Hm0 : (0 <= fmod x 360)%Q) by (rewrite Hm; lra).
  assert (Hm1 : (fmod x 360 < 360)%Q) by (rewrite Hm; lra).
  exists j. split; [exact Hj|].
  unfold f64_mod. cbv zeta.
  destruct (Qeq_bool (fmod x 360) 0) eqn:E.
  - apply Qeq_bool_iff in E. repeat split; lra.
  - assert (Hn : Qnegative (fmod x 360) = false).
    { unfold Qnegative. apply negb_false_iff, Qle_bool_iff, Hm0. }
    rewrite Hn. change (Qnegative 360) with false. cbn [Bool.eqb].
    repeat split; trivial.
Qed.

Lemma remap_lon_float64 (v : Q) :
  (0 <= v)%Q -> (v < 360)%Q ->
  exists k : Z,
    (remap_lon v == f64_add v 180 - 180 + 360 * inject_Z k)%Q /\
    (-180 <= remap_lon v)%Q /\ (remap_lon v < 180)%Q /\
    (Qabs (f64_add v 180 - (v + 180)) <= pow2 (-44))%Q.
Proof.
  intros Hlo Hhi. unfold remap_lon.
  destruct (round64_sum_range (v + 180)) as (K & HK & X1 & X2 & Xe); [lra | lra |].
  fold (f64_add v 180) in *. set (x := f64_add v 180) in *.
  destruct (f64_mod_360 x X1 X2) as (j & Hj & Hm & M0 & M1).
  set (m := f64_mod x 360) in *.
  assert (Hy : (m - 180 == inject_Z (K - (360 * j + 180) * 2 ^ 45) * pow2 (-45))%Q).
  { rewrite Hm, HK. unfold Z.sub. rewrite inject_Z_plus, inject_Z_opp.
    destruct Hj as [-> | ->].
    - assert (E : (inject_Z ((360 * 0 + 180) * 2 ^ 45) * pow2 (-45) == 180)%Q) by reflexivity.
      set (c := inject_Z ((360 * 0 + 180) * 2 ^ 45)) in *. set (p := pow2 (-45)) in *.
      change (inject_Z 0) with 0%Q. lra.
    - assert (E : (inject_Z ((360 * 1 + 180) * 2 ^ 45) * pow2 (-45) == 540)%Q) by reflexivity.
      set (c := inject_Z ((360 * 1 + 180) * 2 ^ 45)) in *. set (p := pow2 (-45)) in *.
      change (inject_Z 1) with 1%Q. lra. }
  assert (Hr : (f64_sub m 180 == m - 180)%Q).
  { unfold f64_sub. apply (round64_exact _ _ _ Hy). intros Hz.
    apply (ulp_exp_below _ 8 Hz); [|lia].
    change (pow2 8) with 256%Q. apply Qabs_case; intros; lra. }
  exists (- j)%Z. rewrite inject_Z_opp.
  repeat split; try (rewrite Hr; lra); exact Xe.
Qed.

(** The model rounds as the machine's float64 does. *)
Module Hardware.
Import PrimFloat.
Local Open Scope float_scope.

Example f64_add_sub_as_hardware :
  forallb (fun p => same_as_hardware (fst p) (snd p))
    [(0x1.67fffffffffffp+7, 0x1.68p+7);
     (0x1.67fffffffffffp+8, 0x1.68p+7);
     (0x1.999999999999ap-4, 0x1.68p+7);
     (0x1.edd2f1a9fbe77p+6, 0x1.68p+7);
     (0x1.999999999999ap-4, 0x1.999999999999ap-3);
     (0x1.3333333333333p-2, 0x1.999999999999ap-4);
     (0x1.1c37937e08p+53, 0x1p+0);
     (0x1p+0, 0x1p+0);
     (0x0.00000000007e8p-1022, 0x0.00000000017b8p-1022);
     (0x1.7e43c8800759cp+996, 0x1.f896e9f0ad8afp+994)]
  = true.
Proof. vm_compute. reflexivity. Qed.

(** On 0.1 the remainder changes nothing, and the model's remapping is the
    machine's sum and difference. *)
Example remap_lon_as_hardware :
  Q_of_float (0x1.999999999999ap-4 + 0x1.68p+7 - 0x1.68p+7)
  = option_map remap_lon (Q_of_float 0x1.999999999999ap-4).
Proof. vm_compute. reflexivity. Qed.

(** 0.1 comes back as 0.09999999999999432, and 179.99999999999997, the last
    float64 below 180, as -180. *)
Example remap_lon_rounds :
  option_map remap_lon (Q_of_float 0x1.999999999999ap-4) = Q_of_float 0x1.99999999998p-4
  /\ option_map remap_lon (Q_of_float 0x1.67fffffffffffp+7) = Some (-180 # 1)%Q.
Proof. vm_compute. split; reflexivity. Qed.

End Hardware.

(** C1 as worded does not hold: 179.99999999999997 is a float64 in [[0, 360)];
    adding 180 rounds to 360, so its remapped value is -180, which is not the
    same angle. *)
Lemma remap_lon_angle_fails :
  (0 <= 6333186975989759 # 35184372088832)%Q /\
  (6333186975989759 # 35184372088832 < 360)%Q /\
  (remap_lon (6333186975989759 # 35184372088832) == -180)%Q /\
  ~ (exists k : Z,
       (remap_lon (6333186975989759 # 35184372088832)
        == (6333186975989759 # 35184372088832) + 360 * inject_Z k)%Q).
Proof.
  assert (E : remap_lon (6333186975989759 # 35184372088832) = (-180 # 1)%Q)
    by (vm_compute; reflexivity).
  repeat split; try (rewrite E; reflexivity); try (unfold Qle, Qlt; simpl; lia).
  intros [k Hk]. rewrite E in Hk.
  assert (H : (inject_Z k == - (12666373951979519 # 12666373951979520))%Q) by lra.
  unfold Qeq in H. simpl in H. lia.
Qed.

(** On a longitude that is a multiple of [2^-43] the sum with 180 is a float64
    as it stands, and so nothing is rounded. *)
Lemma f64_add_180_exact (v : Q) :
  on_grid (-43) v -> (0 <= v)%Q -> (v < 360)%Q -> (f64_add v 180 == v + 180)%Q.
Proof.
  intros [j Hj] Hlo Hhi. unfold f64_add.
  apply (round64_exact _ (j + 180 * 2 ^ 43) (-43)).
  - rewrite inject_Z_plus, Qmult_plus_distr_l, <- Hj.
    assert (E : (inject_Z (180 * 2 ^ 43) * pow2 (-43) == 180)%Q) by reflexivity.
    rewrite E. reflexivity.
  - intros Hz. apply (ulp_exp_below _ 10 Hz); [|lia].
    change (pow2 10) with 1024%Q. apply Qabs_case; intros; lra.
Qed.

(** C1 (amended).  For every longitude [v] with [0 <= v < 360], the remapped
    value [(v + 180) % 360 - 180], computed in float64, lies in [[-180, 180)];
    it is within [2^-44] of a value that differs from [v] by a whole multiple of
    360, and it is that value when the sum [v + 180] is computed without
    rounding, as it is for every [v] that is a multiple of [2^-43]. *)
Theorem remap_lon_range_and_rounded_angle (v : Q) :
  (0 <= v)%Q -> (v < 360)%Q ->
  (-180 <= remap_lon v)%Q /\ (remap_lon v < 180)%Q /\
  (exists k : Z,
      (Qabs (remap_lon v - (v + 360 * inject_Z k)) <= pow2 (-44))%Q /\
      ((f64_add v 180 == v + 180)%Q -> (remap_lon v == v + 360 * inject_Z k)%Q)) /\
  (on_grid (-43) v -> (f64_add v 180 == v + 180)%Q).
Proof.
  intros Hlo Hhi.
  destruct (remap_lon_float64 v Hlo Hhi) as (k & E & A & B & D).
  repeat split; trivial.
  - exists k. split.
    + assert (E' : (remap_lon v - (v + 360 * inject_Z k) == f64_add v 180 - (v + 180))%Q)
        by (rewrite E; ring).
      rewrite E'. exact D.
    + intros Hs. rewrite E, Hs. ring.
  - intros Hg. now apply f64_add_180_exact.
Qed.

Lemma remap_lon_range_and_rounded_angle_witness :
  (-180 <= remap_lon 270)%Q /\ (remap_lon 270 < 180)%Q /\
  (exists k : Z,
      (Qabs (remap_lon 270 - (270 + 360 * inject_Z k)) <= pow2 (-44))%Q /\
      ((f64_add 270 180 == 270 + 180)%Q -> (remap_lon 270 == 270 + 360 * inject_Z k)%Q)) /\
  (on_grid (-43) 270 -> (f64_add 270 180 == 270 + 180)%Q).
Proof. apply (remap_lon_range_and_rounded_angle 270); lra. Defined.

(** ** The site configuration *)

(** C8.  The configuration asks for every notebook to be executed again at
    build time ([execute_notebooks] is ["force"]), does not tolerate failing cells
    ([allow_errors] is false) and makes an execution error fail the build
    ([nb_execution_raise_on_error] is true). *)
Theorem config_execution_policy :
  execute_notebooks config_yml = Some "force" /\
  allow_errors config_yml = Some false /\
  nb_execution_raise_on_error config_yml = Some true.
Proof. repeat split. Qed.

(** ** Sorting along a dimension *)

Section SortbyFacts.
Variables K A : Type.
Variable leb : K -> K -> bool.
Hypothesis leb_total : forall a b, leb a b = true \/ leb b a = true.

Let le_label (p q : K * A) : Prop := leb (fst p) (fst q) = true.

Lemma insert_by_perm (x : K * A) (l : Labelled K A) :
  Permutation (insert_by leb x l) (x :: l).
Proof.
  induction l as [|y l IH]; simpl; [reflexivity|].
  destruct (leb (fst x) (fst y)); [reflexivity|].
  rewrite IH. apply perm_swap.
Qed.

Lemma sortby_perm (l : Labelled K A) : Permutation (sortby leb l) l.
Proof.
  induction l as [|x l IH]; simpl; [reflexivity|].
  rewrite insert_by_perm. now constructor.
Qed.

Lemma insert_by_hd (x y : K * A) (l : Labelled K A) :
  le_label y x -> HdRel le_label y l -> HdRel le_label y (insert_by leb x l).
Proof.
  intros Hyx Hl. destruct l as [|z l]; simpl.
  - now constructor.
  - destruct (leb (fst x) (fst z)); constructor; trivial.
    now inversion Hl.
Qed.

Lemma insert_by_sorted (x : K * A) (l : Labelled K A) :
  Sorted le_label l -> Sorted le_label (insert_by leb x l).
Proof.
  induction 1 as [|y l Hs IH Hhd]; simpl.
  - repeat constructor.
  - destruct (leb (fst x) (fst y)) eqn:E.
    + constructor; [now constructor | now constructor].
    + constructor; [exact IH|].
      apply insert_by_hd; [|exact Hhd].
      destruct (leb_total (fst x) (fst y)) as [H|H]; [congruence | exact H].
Qed.

Lemma sortby_sorted (l : Labelled K A) : Sorted le_label (sortby leb l).
Proof.
  induction l as [|x l IH]; simpl; [constructor|].
  now apply insert_by_sorted.
Qed.

Lemma sorted_labels (R : K -> K -> Prop) (l : Labelled K A) :
  (forall a b, leb a b = true -> R a b) ->
  Sorted le_label l -> Sorted R (labels l).
Proof.
  intros HR. induction 1 as [|y l Hs IH Hhd]; simpl; constructor; trivial.
  destruct Hhd; simpl; constructor. now apply HR.
Qed.

Lemma sorted_is_monotonic (ks : list K) :
  Sorted (fun a b => leb a b = true) ks -> is_monotonic leb ks = true.
Proof.
  induction 1 as [|k ks Hs IH Hhd]; [reflexivity|].
  destruct Hhd as [|k' ks' Hk]; [reflexivity|].
  change (leb k k' && is_monotonic leb (k' :: ks') = true).
  now rewrite Hk, IH.
Qed.
Lemma is_monotonic_sorted (ks : list K) :
  is_monotonic leb ks = true -> Sorted (fun a b => leb a b = true) ks.
Proof.
  induction ks as [|k ks IH]; intros H; [constructor|].
  destruct ks as [|k' ks']; [repeat constructor|].
  cbn [is_monotonic] in H. apply andb_prop in H. destruct H as [H1 H2].
  constructor; [apply IH; exact H2 | constructor; exact H1].
Qed.

End SortbyFacts.

Lemma Qle_bool_total (a b : Q) : Qle_bool a b = true \/ Qle_bool b a = true.
Proof.
  rewrite !Qle_bool_iff. destruct (Qlt_le_dec a b) as [H|H]; [left; lra | now right].
Qed.

(** C5.  After the cell that remaps the longitude and calls [sortby(lon_coord)],
    the longitude coordinate of the dataset reads in non-decreasing order. *)
Theorem sortby_lon_nondecreasing (esgf_ds out : Lazy GridDataset) :
  outcome (cell_clean esgf_ds) = Ok out ->
  Sorted Qle (labels (tas (payload out))).
Proof.
  unfold cell_clean, outcome, call, bind, ret.
  destruct (cf_axis_name (payload esgf_ds)) as [name|e]; simpl; [|discriminate].
  intros H. injection H as <-. simpl.
  apply sorted_labels with (leb := Qle_bool).
  - intros a b. apply Qle_bool_imp_le.
  - apply sortby_sorted. exact Qle_bool_total.
Qed.

Lemma sortby_lon_nondecreasing_witness :
  exists out, outcome (cell_clean (mkLazy [TOpenDAP] demo_grid)) = Ok out /\
              Sorted Qle (labels (tas (payload out))).
Proof.
  eexists. split; [reflexivity|].
  apply (sortby_lon_nondecreasing (mkLazy [TOpenDAP] demo_grid)). reflexivity.
Defined.

(** The sorted coordinate is a rearrangement of the remapped one: no column is
    lost or repeated. *)
Lemma sortby_lon_keeps_columns (esgf_ds out : Lazy GridDataset) :
  outcome (cell_clean esgf_ds) = Ok out ->
  Permutation (tas (payload out)) (map_labels remap_lon (tas (payload esgf_ds))).
Proof.
  unfold cell_clean, outcome, call, bind, ret.
  destruct (cf_axis_name (payload esgf_ds)) as [name|e]; simpl; [|discriminate].
  intros H. injection H as <-. simpl. apply sortby_perm.
Qed.

(** ** Chronological order *)

Ltac order_props :=
  unfold ts_leb, date_leb, month_index, date_of, slice_lower, slice_upper in *;
  cbn [ts_year ts_month ts_day ts_nanos d_year d_month d_day fst snd] in *;
  repeat rewrite ?orb_true_iff, ?andb_true_iff, ?Z.ltb_lt, ?Z.eqb_eq, ?Z.leb_le in *.

Lemma ts_leb_total (a b : Timestamp) : ts_leb a b = true \/ ts_leb b a = true.
Proof. order_props. lia. Qed.

Lemma ts_leb_trans (a b c : Timestamp) :
  ts_leb a b = true -> ts_leb b c = true -> ts_leb a c = true.
Proof. order_props. lia. Qed.

Lemma ts_leb_month (a b : Timestamp) :
  ts_leb a b = true -> (month_index a <= month_index b)%Z.
Proof. order_props. lia. Qed.

Lemma ts_leb_date (a b : Timestamp) :
  ts_leb a b = true -> date_leb (date_of a) (date_of b) = true.
Proof. order_props. lia. Qed.

(** ** Time slicing *)

Lemma sel_time_slice_2013 (A : Type) (l : Labelled Timestamp A) :
  sel_time_slice start_date end_date l =
  Ok (filter (fun p => ts_leb (slice_lower (mkDate 2013 1 1)) (fst p)
                       && ts_leb (fst p) (slice_upper (mkDate 2013 12 31))) l).
Proof. reflexivity. Qed.

Lemma slice_keeps_within (A : Type) (l : Labelled Timestamp A) (p : Timestamp * A) :
  In p (filter (fun p => ts_leb (slice_lower (mkDate 2013 1 1)) (fst p)
                         && ts_leb (fst p) (slice_upper (mkDate 2013 12 31))) l) ->
  within_dates (mkDate 2013 1 1) (mkDate 2013 12 31) (fst p).
Proof.
  rewrite filter_In, andb_true_iff. intros [_ [Hlo Hhi]].
  split.
  - apply (ts_leb_date _ _ Hlo).
  - apply (ts_leb_date _ _ Hhi).
Qed.

(** C4.  The cell [cmip6_nearest.sel(time=slice(start_date, end_date))] always
    returns, and every timestamp it keeps falls on a day from 2013-01-01 to
    2013-12-31, both days included. *)
Theorem time_slice_within_bounds (cmip6_nearest : Lazy PointSeries) :
  exists out,
    outcome (cell_slice cmip6_nearest) = Ok out /\
    Forall (within_dates (mkDate 2013 1 1) (mkDate 2013 12 31))
           (labels (ps_tas (payload out))).
Proof.
  unfold cell_slice, outcome, call, bind, ret.
  rewrite sel_time_slice_2013. simpl.
  eexists. split; [reflexivity|]. simpl.
  apply Forall_forall. intros t Ht.
  unfold labels in Ht. apply in_map_iff in Ht. destruct Ht as (p & <- & Hp).
  now apply slice_keeps_within in Hp.
Qed.

(** Both end days are kept in full, and nothing else is dropped. *)
Lemma time_slice_keeps_whole_days (A : Type) (l out : Labelled Timestamp A)
  (p : Timestamp * A) :
  sel_time_slice start_date end_date l = Ok out ->
  In p l ->
  within_dates (mkDate 2013 1 1) (mkDate 2013 12 31) (fst p) ->
  (0 <= ts_nanos (fst p) < nanos_per_day)%Z ->
  In p out.
Proof.
  rewrite sel_time_slice_2013. intros H; injection H as <-.
  intros Hin [Hlo Hhi] Hn. apply filter_In. split; [exact Hin|].
  unfold nanos_per_day in Hn. destruct p as [t a]. destruct t as [y m d n].
  order_props. unfold nanos_per_day. lia.
Qed.

(** ** Monthly resampling *)

Lemma month_end_index (m : Z) : month_index (month_end m) = m.
Proof.
  unfold month_index, month_end. cbn [ts_year ts_month].
  pose proof (Z.div_mod m 12 ltac:(lia)). lia.
Qed.

Lemma temp_mean_labels (ds : SiteDataset) : labels (temp_mean ds) = labels ds.
Proof.
  unfold labels, temp_mean. rewrite map_map. reflexivity.
Qed.

Lemma span_members (lo hi m : Z) :
  In m (map (fun i => (lo + Z.of_nat i)%Z) (seq 0 (Z.to_nat (hi - lo + 1))))
  <-> (lo <= m <= hi)%Z.
Proof.
  rewrite in_map_iff. split.
  - intros (i & <- & Hi). apply in_seq in Hi. lia.
  - intros H. exists (Z.to_nat (m - lo)). split; [lia|]. apply in_seq. lia.
Qed.

Lemma span_nodup (lo : Z) (n : nat) :
  NoDup (map (fun i => (lo + Z.of_nat i)%Z) (seq 0 n)).
Proof.
  apply Finite.Injective_map_NoDup; [|apply seq_NoDup].
  intros i j H. lia.
Qed.

Lemma resample_months (s : TimeSeries) :
  map (fun p => month_index (fst p))
      (map (fun m => (month_end m, mean (bin_values m s))) (month_span s))
  = month_span s.
Proof.
  rewrite map_map. simpl.
  rewrite (map_ext _ (fun m => m)); [apply map_id|].
  intros m. apply month_end_index.
Qed.

Section SortedEnds.
Variable leT : Timestamp -> Timestamp -> Prop.
Hypothesis leT_month : forall a b, leT a b -> (month_index a <= month_index b)%Z.

Lemma sorted_first_is_earliest (t : Timestamp) (ks : list Timestamp) :
  StronglySorted leT (t :: ks) ->
  forall k, In k (t :: ks) -> (month_index t <= month_index k)%Z.
Proof.
  intros H k [<-|Hk]; [lia|].
  apply StronglySorted_inv in H. destruct H as [_ H].
  rewrite Forall_forall in H. auto.
Qed.

Lemma sorted_last_is_latest (ks : list Timestamp) (d : Timestamp) :
  StronglySorted leT ks ->
  forall k, In k ks -> (month_index k <= month_index (last ks d))%Z.
Proof.
  induction 1 as [|t ks Hs IH Hall]; intros k Hk; [destruct Hk|].
  destruct ks as [|t' ks'].
  - destruct Hk as [<-|[]]. simpl. lia.
  - change (last (t :: t' :: ks') d) with (last (t' :: ks') d).
    destruct Hk as [<-|Hk].
    + rewrite Forall_forall in Hall.
      assert (Hin : In (last (t' :: ks') d) (t' :: ks')).
      { destruct (exists_last (l := t' :: ks')) as (l' & a & E); [discriminate|].
        rewrite E, last_last. apply in_or_app. right. now left. }
      auto.
    + now apply IH.
Qed.
End SortedEnds.

Lemma last_labels {A : Type} (l : Labelled Timestamp A) (p : Timestamp * A) :
  fst (last l p) = last (labels l) (fst p).
Proof.
  unfold labels. induction l as [|x l IH]; [reflexivity|].
  destruct l; [reflexivity|]. exact IH.
Qed.

Lemma last_in {A : Type} (x : A) (l : list A) : In (last (x :: l) x) (x :: l).
Proof.
  destruct (exists_last (l := x :: l)) as (l' & a & E); [discriminate|].
  rewrite E, last_last. apply in_or_app. right. now left.
Qed.

Lemma sortby_time_strongly_sorted {A : Type} (l : Labelled Timestamp A) :
  StronglySorted (fun a b => ts_leb a b = true) (labels (sortby ts_leb l)).
Proof.
  apply Sorted_StronglySorted.
  - intros a b c. apply ts_leb_trans.
  - apply sorted_labels with (leb := ts_leb); [auto|].
    apply sortby_sorted. exact ts_leb_total.
Qed.

Lemma sortby_labels_in {A : Type} (l : Labelled Timestamp A) (t : Timestamp) :
  In t (labels (sortby ts_leb l)) <-> In t (labels l).
Proof.
  unfold labels. split; apply Permutation_in, Permutation_map.
  - apply sortby_perm.
  - symmetry. apply sortby_perm.
Qed.

(** The months of a sorted series reach from its first label to its last. *)
Lemma month_span_members (s : TimeSeries) (m : Z) :
  StronglySorted (fun a b => ts_leb a b = true) (labels s) ->
  In m (month_span s) <->
  exists a b, In a (labels s) /\ In b (labels s) /\
              (month_index a <= m <= month_index b)%Z.
Proof.
  intros Hs. destruct s as [|p s].
  - simpl. split; [intros [] | intros (a & _ & [] & _)].
  - unfold month_span. cbv beta iota zeta.
    rewrite span_members. rewrite (last_labels (p :: s) p).
    split.
    + intros H. exists (fst p), (last (labels (p :: s)) (fst p)).
      split; [now left|]. split; [apply (last_in (fst p) (labels s)) | exact H].
    + intros (a & b & Ha & Hb & H).
      pose proof (sorted_first_is_earliest _ ts_leb_month _ _ Hs a Ha).
      pose proof (sorted_last_is_latest _ ts_leb_month _ (fst p) Hs b Hb).
      lia.
Qed.

Lemma month_span_nodup (s : TimeSeries) : NoDup (month_span s).
Proof.
  destruct s as [|p s]; simpl; [constructor | apply span_nodup].
Qed.

(** C2 as worded does not hold: the sample observations are a non-empty
    series, read in the order of the file and not by time, and resampling them
    raises instead of returning monthly values. *)
Lemma monthly_resampling_unsorted_fails :
  temp_mean demo_site <> [] /\
  resample_1M_mean (temp_mean demo_site)
  = Raised (ValueError "index must be monotonic for resampling") /\
  ~ (exists out, resample_1M_mean (temp_mean demo_site) = Ok out).
Proof.
  split; [discriminate|]. split; [reflexivity|].
  intros [out H]. discriminate H.
Qed.

(** C2 (amended).  On a non-empty series whose time index is in increasing
    order, resampling by month with the mean returns one value per calendar
    month of the span the series covers: no month is repeated, every month
    between the earliest and the latest timestamp is there (also one without
    data), and no other. *)
Theorem monthly_resampling_of_ordered_series (s : TimeSeries) :
  s <> [] ->
  is_monotonic ts_leb (labels s) = true ->
  exists out,
    resample_1M_mean s = Ok out /\
    NoDup (months_of out) /\
    (forall m, In m (months_of out) <->
               exists a b, In a (labels s) /\ In b (labels s) /\
                           (month_index a <= m <= month_index b)%Z).
Proof.
  intros Hne Hmono.
  assert (Hsorted : StronglySorted (fun a b => ts_leb a b = true) (labels s)).
  { apply Sorted_StronglySorted; [intros a b c; apply ts_leb_trans|].
    now apply is_monotonic_sorted. }
  unfold resample_1M_mean. destruct s as [|p s'] eqn:Es; [congruence|].
  rewrite Hmono. eexists. split; [reflexivity|].
  unfold months_of. rewrite resample_months.
  split; [apply month_span_nodup|].
  intros m. apply (month_span_members _ m Hsorted).
Qed.

Lemma monthly_resampling_of_ordered_series_witness :
  exists out,
    resample_1M_mean (temp_mean (sortby ts_leb demo_site)) = Ok out /\
    NoDup (months_of out) /\
    (forall m, In m (months_of out) <->
               exists a b, In a (labels (temp_mean (sortby ts_leb demo_site))) /\
                           In b (labels (temp_mean (sortby ts_leb demo_site))) /\
                           (month_index a <= m <= month_index b)%Z).
Proof.
  apply (monthly_resampling_of_ordered_series (temp_mean (sortby ts_leb demo_site)));
    [discriminate | reflexivity].
Defined.

(** The notebook sorts by time first, which puts the index in order whatever
    the order of the files. *)
Lemma sortby_time_is_monotonic (arm_ds : SiteDataset) :
  is_monotonic ts_leb (labels (temp_mean (sortby ts_leb arm_ds))) = true.
Proof.
  apply sorted_is_monotonic. rewrite temp_mean_labels.
  apply StronglySorted_Sorted, sortby_time_strongly_sorted.
Qed.

(** On the sample site (January, March and May observed) the result has the
    five months January to May, February and April without a value. *)
Example demo_site_months :
  exists out,
    resample_1M_mean (temp_mean (sortby ts_leb demo_site)) = Ok out /\
    months_of out = [24156; 24157; 24158; 24159; 24160]%Z /\
    map (fun p => match snd p with Some _ => true | None => false end) out
    = [true; false; true; false; true].
Proof. eexists. split; [reflexivity|]. split; reflexivity. Qed.

(** ** Unit conversion *)

Lemma convert_same_unit (u : Units.Unit) (s : TimeSeries) :
  Units.unit_eqb u u = true -> Units.convert_series u u s = Ok s.
Proof.
  intros Hu. induction s as [|[t v] s IH]; [reflexivity|].
  simpl. unfold Units.convert at 1. now rewrite Hu, IH.
Qed.

Lemma kelvin_to_celsius (v : Q) :
  exists v', Units.convert Units.kelvin Units.degC v = Ok v' /\
             (v' == v - (27315 # 100))%Q.
Proof.
  eexists. split; [reflexivity|].
  unfold Units.from_reference, Units.to_reference. simpl. field.
Qed.

Lemma kelvin_to_celsius_series (s : TimeSeries) :
  exists s', Units.convert_series Units.kelvin Units.degC s = Ok s' /\
             labels s' = labels s /\
             Forall2 (fun v' v => (v' == v - (27315 # 100))%Q) (map snd s') (map snd s).
Proof.
  induction s as [|[t v] s (s' & E & Hl & Hv)].
  - exists []. repeat split. constructor.
  - destruct (kelvin_to_celsius v) as (v' & Ev & Hv').
    exists ((t, v') :: s'). cbn [Units.convert_series]. rewrite Ev, E.
    split; [reflexivity|]. split.
    + simpl. now rewrite <- Hl.
    + simpl. now constructor.
Qed.

(** C3.  The cell [convert_units('degC')] on the model series in kelvin
    subtracts 273.15 from every value and leaves the time labels alone; run on
    its own result, it returns that result unchanged. *)
Theorem convert_units_kelvin_to_celsius (tas_series : TimeSeries) :
  exists out,
    outcome (cell_convert (Units.quantify "K" tas_series)) = Ok out /\
    Units.q_units out = Units.degC /\
    labels (Units.q_series out) = labels tas_series /\
    Forall2 (fun v' v => (v' == v - (27315 # 100))%Q)
            (map snd (Units.q_series out)) (map snd tas_series) /\
    outcome (cell_convert out) = Ok out.
Proof.
  destruct (kelvin_to_celsius_series tas_series) as (s' & E & Hl & Hv).
  exists (Units.mkQuantity Units.degC s').
  unfold cell_convert, outcome, call. cbn [snd].
  unfold Units.convert_units, Units.quantify.
  change (Units.parse_units "degC") with Units.degC.
  change (Units.parse_units "K") with Units.kelvin.
  cbn [Units.q_units Units.q_series]. rewrite E.
  repeat split; trivial.
  now rewrite convert_same_unit.
Qed.

(** Whatever the unit of a series, a second conversion to the same target is
    a no-op. *)
Lemma convert_units_idempotent (target : string) (q out : Units.Quantity) :
  Units.convert_units target q = Ok out ->
  Units.convert_units target out = Ok out.
Proof.
  unfold Units.convert_units.
  destruct (Units.convert_series (Units.q_units q) (Units.parse_units target)
                                 (Units.q_series q)) as [s|e]; [|discriminate].
  intros H. injection H as <-. cbn [Units.q_units Units.q_series].
  rewrite convert_same_unit; [reflexivity|].
  destruct (Units.parse_units target); simpl; trivial. apply String.eqb_refl.
Qed.

(** ** Runs *)

Ltac unfold_cells :=
  unfold notebook, cell_search, cell_open_esgf, cell_clean, cell_download,
    cell_open_arm, cell_site, cell_nearest, cell_datetime, cell_slice,
    cell_monthly_mean, cell_quantify, cell_convert, cell_plot, values, compute,
    defer, select in *.

Ltac run_step H :=
  match type of H with
  | context [match ?r with Ok _ => _ | Raised _ => _ end] =>
      destruct r eqn:?;
      cbn [bind call ret fst snd app exn_of graph payload map ev_op] in H |- *;
      try discriminate H
  end.

Ltac run_cases :=
  repeat match goal with
    | |- context [match ?r with Ok _ => _ | Raised _ => _ end] =>
        destruct r;
        cbn [bind call ret fst snd app exn_of graph payload map ev_op filter
             is_file_search is_open]
    end.

Lemma faithful_ret {A : Type} (a : A) : faithful (ret a).
Proof. constructor. Qed.

Lemma faithful_call {A : Type} (op : Op) (r : result A) : faithful (call op r).
Proof.
  unfold faithful, call, outcome, trace. destruct r as [a|e]; simpl.
  - repeat constructor.
  - exists [], op. split; [reflexivity | constructor].
Qed.

Lemma faithful_bind {A B : Type} (m : Run A) (k : A -> Run B) :
  faithful m -> (forall a, faithful (k a)) -> faithful (bind m k).
Proof.
  unfold faithful, outcome, trace, bind.
  destruct m as [t [a|e]]; simpl; intros Hm Hk; [|exact Hm].
  specialize (Hk a). destruct (k a) as [t' [b|e]]; simpl in *.
  - apply Forall_app. now split.
  - destruct Hk as (before & op & -> & Hc).
    exists (t ++ before), op. split; [now rewrite app_assoc|].
    apply Forall_app. now split.
Qed.

Ltac faithful_steps :=
  repeat first
    [ apply faithful_ret
    | apply faithful_call
    | apply faithful_bind; [|intros ?]
    | progress cbv zeta ].

Lemma notebook_faithful (w : World) : faithful (notebook w).
Proof.
  unfold notebook, cell_search, cell_open_esgf, cell_clean, cell_download,
    cell_open_arm, cell_site, cell_nearest, cell_datetime, cell_slice,
    cell_monthly_mean, cell_quantify, cell_convert, cell_plot, values, compute.
  faithful_steps.
Qed.

(** C7.  Whenever an operation of a run fails with exception [e], that
    operation is the last one attempted, nothing before it had failed, and the
    run ends with [e] itself: nothing is caught, retried or replaced. *)
Theorem failures_propagate (w : World) (op : Op) (e : Exn) :
  In (mkEvent op (Some e)) (trace (notebook w)) ->
  outcome (notebook w) = Raised e /\
  exists before,
    trace (notebook w) = before ++ [mkEvent op (Some e)] /\ clean before.
Proof.
  intros Hin. pose proof (notebook_faithful w) as Hf. unfold faithful in Hf.
  destruct (outcome (notebook w)) as [fig|e'].
  - unfold clean in Hf. rewrite Forall_forall in Hf.
    apply Hf in Hin. discriminate.
  - destruct Hf as (before & op' & Ht & Hc).
    rewrite Ht in Hin. apply in_app_or in Hin. destruct Hin as [Hin|[Heq|[]]].
    + unfold clean in Hc. rewrite Forall_forall in Hc. apply Hc in Hin. discriminate.
    + injection Heq as -> ->. split; [reflexivity|].
      exists before. now split.
Qed.

Lemma failures_propagate_witness :
  outcome (notebook no_credentials_world)
  = Raised (TypeError "sequence item: expected str instance, NoneType found") /\
  exists before,
    trace (notebook no_credentials_world)
    = before ++ [mkEvent (OpDownload None None datastream start_date end_date)
                         (Some (TypeError "sequence item: expected str instance, NoneType found"))]
    /\ clean before.
Proof.
  apply (failures_propagate no_credentials_world).
  vm_compute. repeat (first [left; reflexivity | right]).
Defined.

Lemma demo_world_completes : outcome (notebook demo_world) = Ok demo_figure.
Proof. vm_compute. reflexivity. Qed.

(** With a handler around it a failing call would not end the run. *)
Example handler_would_hide_failure :
  ~ faithful (bind (try_except (call OpClient (Raised IndexError)) (fun _ => ret tt))
                   (fun _ => ret tt)).
Proof.
  unfold faithful, clean. simpl. intros H.
  apply Forall_inv in H. discriminate.
Qed.

(** A size mismatch when the converted time index is assigned ends the run
    with the error of the assignment, before anything is sliced or computed. *)
Example shape_mismatch_ends_run :
  outcome (notebook short_index_world)
  = Raised (ValueError "conflicting sizes for dimension 'time'") /\
  last (trace (notebook short_index_world)) (mkEvent OpClient None)
  = mkEvent OpAssignTime (Some (ValueError "conflicting sizes for dimension 'time'")).
Proof. vm_compute. split; reflexivity. Qed.

(** A search that fails is the end of the run, and nothing is tried after it. *)
Lemma failed_search_ends_run (w : World) (e : Exn) :
  start_client w = Ok tt ->
  esgf_search w ctx = Raised e ->
  notebook w = ([mkEvent OpClient None; mkEvent (OpSearch ctx) (Some e)], Raised e).
Proof.
  intros Hc Hs. unfold notebook, cell_search.
  rewrite Hc. cbn [bind call ret fst snd app exn_of]. rewrite Hs. reflexivity.
Qed.

Lemma getitem_nth {A : Type} (xs : list A) (i : nat) (x : A) :
  getitem xs i = Ok x -> nth_error xs i = Some x.
Proof.
  unfold getitem. destruct (nth_error xs i); [|discriminate].
  intros H. now injection H as <-.
Qed.


(** A run only completes when the search gave two hits or more and the
    download, called with the credentials just as the environment has them,
    went through. *)
Lemma completed_run_needs (w : World) (fig : list Plot) :
  outcome (notebook w) = Ok fig ->
  (exists hits, esgf_search w ctx = Ok hits /\ (2 <= List.length hits)%nat) /\
  (exists files,
      download_data w (environ w "ARM_USERNAME") (environ w "ARM_PASSWORD")
                    datastream start_date end_date = Ok files).
Proof.
  unfold outcome. intros H. unfold_cells.
  cbn [bind call ret fst snd app exn_of graph payload map ev_op] in H |- *.
  repeat run_step H.
  split; [|eauto].
  eexists. split; [reflexivity|].
  match goal with
  | E : getitem ?hits 1 = Ok _ |- _ =>
      destruct hits as [|? [|? ?]]; [discriminate E | discriminate E | simpl; lia]
  end.
Qed.


(** The calls of a completed run, with what each was given. *)
Lemma notebook_success_ops (w : World) (fig : list Plot) :
  outcome (notebook w) = Ok fig ->
  exists hits second files esgf_ds lon_coord arm_files arm_ds units,
    esgf_search w ctx = Ok hits /\
    nth_error hits 1 = Some second /\
    esgf_file_search w esgf_endpoint second = Ok files /\
    open_opendap w (map opendap_url files) = Ok esgf_ds /\
    cf_axis_name esgf_ds = Ok lon_coord /\
    download_data w (environ w "ARM_USERNAME") (environ w "ARM_PASSWORD")
                  datastream start_date end_date = Ok arm_files /\
    open_files w arm_files = Ok arm_ds /\
    ops (notebook w) =
    [OpClient; OpSearch ctx; OpGetitem 1; OpFileSearch esgf_endpoint second;
     OpOpenDAP (map opendap_url files); OpAxis "X";
     OpGetenv "ARM_USERNAME"; OpGetenv "ARM_PASSWORD";
     OpDownload (environ w "ARM_USERNAME") (environ w "ARM_PASSWORD")
                datastream start_date end_date;
     OpOpenFiles arm_files;
     OpValues [TOpenFiles]; OpGetitem 0; OpValues [TOpenFiles]; OpGetitem 0;
     OpSelNearest; OpToDatetimeIndex; OpAssignTime;
     OpSlice start_date end_date; OpResample;
     OpCompute [TOpenFiles; TSortby "time"; TResampleMean];
     OpCompute [TOpenDAP; TSortby lon_coord; TSelNearest; TSlice];
     OpQuantify units;
     OpConvertUnits "degC"; OpPlot esgf_label; OpPlot arm_label].
Proof.
  unfold outcome, ops, trace. intros H.
  unfold_cells.
  cbn [bind call ret fst snd app exn_of graph payload map ev_op] in H |- *.
  repeat run_step H.
  do 8 eexists.
  repeat (split; [first [reflexivity | eassumption | apply getitem_nth; eassumption]|]).
  reflexivity.
Qed.

(** ** Materialising calls *)

(** C6 as worded does not hold: on the sample world the second [.compute()]
    is on a chain without a resampling (and two [.values] reads materialise
    data as well). *)
Lemma two_resampling_triggers_fails :
  ~ two_resampling_triggers (ops (notebook demo_world)).
Proof.
  intros [(g_arm & g_cmip6 & Hc & _ & Hr) _].
  vm_compute in Hc. injection Hc as _ <-. discriminate Hr.
Qed.

Example demo_values_also_block :
  filter is_blocking (ops (notebook demo_world))
  = [OpValues [TOpenFiles]; OpValues [TOpenFiles];
     OpCompute [TOpenFiles; TSortby "time"; TResampleMean];
     OpCompute [TOpenDAP; TSortby "lon"; TSelNearest; TSlice]].
Proof. vm_compute. reflexivity. Qed.

(** C6 (amended).  A run that completes calls [.compute()] exactly twice, once
    per dataset: on the monthly resampled mean of the observations, and on the
    model series as sliced, which is not resampled.  The only other calls that
    materialise data are the two [.values] reads of the site position; all other
    dataset operations stay deferred. *)
Theorem blocking_calls_of_a_run (w : World) (fig : list Plot) :
  outcome (notebook w) = Ok fig ->
  exists lon_coord,
    filter is_blocking (ops (notebook w))
    = [OpValues [TOpenFiles]; OpValues [TOpenFiles];
       OpCompute [TOpenFiles; TSortby "time"; TResampleMean];
       OpCompute [TOpenDAP; TSortby lon_coord; TSelNearest; TSlice]] /\
    filter is_compute (ops (notebook w))
    = [OpCompute [TOpenFiles; TSortby "time"; TResampleMean];
       OpCompute [TOpenDAP; TSortby lon_coord; TSelNearest; TSlice]] /\
    filter computes_resampling (ops (notebook w))
    = [OpCompute [TOpenFiles; TSortby "time"; TResampleMean]].
Proof.
  intros H.
  destruct (notebook_success_ops w fig H)
    as (hits & second & files & esgf_ds & lon_coord & arm_files & arm_ds & units
        & _ & _ & _ & _ & _ & _ & _ & ->).
  exists lon_coord. repeat split.
Qed.

Lemma blocking_calls_of_a_run_witness :
  exists fig lon_coord,
    outcome (notebook demo_world) = Ok fig /\
    filter is_blocking (ops (notebook demo_world))
    = [OpValues [TOpenFiles]; OpValues [TOpenFiles];
       OpCompute [TOpenFiles; TSortby "time"; TResampleMean];
       OpCompute [TOpenDAP; TSortby lon_coord; TSelNearest; TSlice]] /\
    filter is_compute (ops (notebook demo_world))
    = [OpCompute [TOpenFiles; TSortby "time"; TResampleMean];
       OpCompute [TOpenDAP; TSortby lon_coord; TSelNearest; TSlice]] /\
    filter computes_resampling (ops (notebook demo_world))
    = [OpCompute [TOpenFiles; TSortby "time"; TResampleMean]].
Proof.
  exists demo_figure.
  destruct (blocking_calls_of_a_run demo_world _ demo_world_completes) as (lon_coord & H).
  exists lon_coord. split; [exact demo_world_completes | exact H].
Defined.


(** ** Network traffic *)

(** C9 as worded does not hold: on the sample world the run calls [search()]
    twice, and the two calls send four queries to the search endpoint, not
    one. *)
Lemma one_search_query_fails :
  filter is_search (ops (notebook demo_world))
  = [OpSearch ctx; OpFileSearch esgf_endpoint
       (mkDataset "CMIP6.CMIP.E3SM-Project.E3SM-1-0.historical.r1i1p1f1.Amon.tas.gr.v20190913")] /\
  total_http_queries demo_world (ops (notebook demo_world)) = Some 4%nat /\
  total_http_queries demo_world (ops (notebook demo_world)) <> Some 1%nat.
Proof. vm_compute. repeat split. discriminate. Qed.

(** C9 (amended).  A run that completes calls [search()] twice, on the dataset
    context and then on the file context of the hit at index 1.  Each call
    sends one query for the number of hits and one for every batch of 50
    results read, so the run sends four queries to the search endpoint, and one
    more for every 50 files the file search returned.  Its remaining network
    traffic is the OPeNDAP open of the URLs of these files, the ARM download,
    and the OPeNDAP reads of the model series when it is computed. *)
Theorem search_queries_of_a_run (w : World) (fig : list Plot) :
  outcome (notebook w) = Ok fig ->
  exists hits second files esgf_ds lon_coord,
    esgf_search w ctx = Ok hits /\
    nth_error hits 1 = Some second /\
    esgf_file_search w esgf_endpoint second = Ok files /\
    open_opendap w (map opendap_url files) = Ok esgf_ds /\
    cf_axis_name esgf_ds = Ok lon_coord /\
    filter is_search (ops (notebook w))
    = [OpSearch ctx; OpFileSearch esgf_endpoint second] /\
    total_http_queries w (ops (notebook w))
    = Some (4 + List.length files / batch_size)%nat /\
    filter (fun op => is_network op && negb (is_search op)) (ops (notebook w))
    = [OpOpenDAP (map opendap_url files);
       OpDownload (environ w "ARM_USERNAME") (environ w "ARM_PASSWORD")
                  datastream start_date end_date;
       OpCompute [TOpenDAP; TSortby lon_coord; TSelNearest; TSlice]].
Proof.
  intros H.
  destruct (notebook_success_ops w fig H)
    as (hits & second & files & esgf_ds & lon_coord & arm_files & arm_ds & units
        & Hs & Hn & Hf & Ho & Hx & _ & _ & ->).
  exists hits, second, files, esgf_ds, lon_coord.
  repeat (split; [first [assumption | reflexivity]|]).
  split; [|reflexivity].
  cbn [total_http_queries http_queries]. rewrite Hs, Hf.
  unfold search_http_queries. f_equal.
  change (1 / batch_size)%nat with 0%nat. lia.
Qed.

Lemma search_queries_of_a_run_witness :
  exists fig hits second files esgf_ds lon_coord,
    outcome (notebook demo_world) = Ok fig /\
    esgf_search demo_world ctx = Ok hits /\
    nth_error hits 1 = Some second /\
    esgf_file_search demo_world esgf_endpoint second = Ok files /\
    open_opendap demo_world (map opendap_url files) = Ok esgf_ds /\
    cf_axis_name esgf_ds = Ok lon_coord /\
    filter is_search (ops (notebook demo_world))
    = [OpSearch ctx; OpFileSearch esgf_endpoint second] /\
    total_http_queries demo_world (ops (notebook demo_world))
    = Some (4 + List.length files / batch_size)%nat /\
    filter (fun op => is_network op && negb (is_search op)) (ops (notebook demo_world))
    = [OpOpenDAP (map opendap_url files);
       OpDownload (environ demo_world "ARM_USERNAME") (environ demo_world "ARM_PASSWORD")
                  datastream start_date end_date;
       OpCompute [TOpenDAP; TSortby lon_coord; TSelNearest; TSlice]].
Proof.
  exists demo_figure.
  destruct (search_queries_of_a_run demo_world _ demo_world_completes)
    as (hits & second & files & esgf_ds & lon_coord & H).
  exists hits, second, files, esgf_ds, lon_coord.
  split; [exact demo_world_completes | exact H].
Defined.

(** ** The search stage *)

(** C10.  Once the dataset search has returned, the notebook takes the hit at
    index 1.  With two hits or more the only file search of the run is made on
    the second hit, never on the first; with fewer the run ends in [IndexError]
    and no dataset has been opened. *)
Theorem search_uses_second_hit (w : World) (hits : list DatasetResult) :
  start_client w = Ok tt ->
  esgf_search w ctx = Ok hits ->
  match hits with
  | _ :: second :: _ =>
      filter is_file_search (ops (notebook w)) = [OpFileSearch esgf_endpoint second]
  | _ =>
      outcome (notebook w) = Raised IndexError /\
      filter is_open (ops (notebook w)) = []
  end.
Proof.
  intros Hc Hs. unfold outcome, ops, trace. unfold_cells.
  rewrite Hc. cbn [bind call ret fst snd app exn_of]. rewrite Hs.
  destruct hits as [|first [|second rest]].
  - split; reflexivity.
  - split; reflexivity.
  - cbn [bind call ret fst snd app exn_of getitem nth_error graph payload map ev_op
         filter is_file_search].
    run_cases; reflexivity.
Qed.

Lemma search_uses_second_hit_witness :
  (outcome (notebook single_hit_world) = Raised IndexError /\
   filter is_open (ops (notebook single_hit_world)) = []) /\
  filter is_file_search (ops (notebook demo_world))
  = [OpFileSearch esgf_endpoint
       (mkDataset "CMIP6.CMIP.E3SM-Project.E3SM-1-0.historical.r1i1p1f1.Amon.tas.gr.v20190913")].
Proof.
  split.
  - exact (search_uses_second_hit single_hit_world _ eq_refl eq_refl).
  - exact (search_uses_second_hit demo_world _ eq_refl eq_refl).
Defined.

(** * Further properties *)

(** ** The remapping on grid longitudes *)

Lemma remap_lon_grid_turn (v : Q) :
  on_grid (-43) v -> (0 <= v)%Q -> (v < 360)%Q ->
  exists k : Z, (remap_lon v == v + 360 * inject_Z k)%Q /\
                (-180 <= remap_lon v)%Q /\ (remap_lon v < 180)%Q.
Proof.
  intros Hg Hlo Hhi.
  destruct (remap_lon_float64 v Hlo Hhi) as (k & E & A & B & _).
  exists k. rewrite (f64_add_180_exact v Hg Hlo Hhi) in E.
  repeat split; trivial. rewrite E. ring.
Qed.

Lemma remap_lon_east (v : Q) :
  on_grid (-43) v -> (0 <= v)%Q -> (v < 180)%Q -> (remap_lon v == v)%Q.
Proof.
  intros Hg Hlo Hhi.
  destruct (remap_lon_grid_turn v Hg Hlo) as (k & Hk & A & B); [lra|].
  assert (Hz : (k = 0)%Z).
  { assert (H1 : (inject_Z (-1) < inject_Z k)%Q) by (change (inject_Z (-1)) with (-1)%Q; lra).
    assert (H2 : (inject_Z k < inject_Z 1)%Q) by (change (inject_Z 1) with 1%Q; lra).
    rewrite <- Zlt_Qlt in H1, H2. lia. }
  rewrite Hk, Hz. change (inject_Z 0) with 0%Q. ring.
Qed.

Lemma remap_lon_west (v : Q) :
  on_grid (-43) v -> (180 <= v)%Q -> (v < 360)%Q -> (remap_lon v == v - 360)%Q.
Proof.
  intros Hg Hlo Hhi.
  destruct (remap_lon_grid_turn v Hg) as (k & Hk & A & B); [lra | lra |].
  assert (Hz : (k = -1)%Z).
  { assert (H1 : (inject_Z (-2) < inject_Z k)%Q) by (change (inject_Z (-2)) with (-2)%Q; lra).
    assert (H2 : (inject_Z k < inject_Z 0)%Q) by (change (inject_Z 0) with 0%Q; lra).
    rewrite <- Zlt_Qlt in H1, H2. lia. }
  rewrite Hk, Hz. change (inject_Z (-1)) with (-1)%Q. ring.
Qed.

(** X6.  On a longitude of [[0, 360)] that is a multiple of [2^-43] (whole
    degrees, halves, quarters and so on down to that step) the float64
    remapping rounds nowhere: a value below 180 comes back as it is, a value
    from 180 on comes back one turn lower. *)
Theorem remap_lon_on_grid (v : Q) :
  on_grid (-43) v -> (0 <= v)%Q -> (v < 360)%Q ->
  (remap_lon v == if Qle_bool 180 v then v - 360 else v)%Q.
Proof.
  intros Hg Hlo Hhi. destruct (Qle_bool 180 v) eqn:E.
  - apply Qle_bool_iff in E. now apply remap_lon_west.
  - apply remap_lon_east; trivial.
    destruct (Qlt_le_dec v 180) as [H|H]; [exact H|].
    apply Qle_bool_iff in H. congruence.
Qed.

Lemma remap_lon_on_grid_witness :
  (remap_lon (1075 # 4) == if Qle_bool 180 (1075 # 4) then (1075 # 4) - 360 else 1075 # 4)%Q.
Proof.
  apply (remap_lon_on_grid (1075 # 4)).
  - exists (1075 * 2 ^ 41)%Z. reflexivity.
  - unfold Qle; simpl; lia.
  - unfold Qlt; simpl; lia.
Defined.

(** ** The cleaned grid *)

Section SortRuns.
Variables K A : Type.
Variable leb : K -> K -> bool.

Let le_label (p q : K * A) : Prop := leb (fst p) (fst q) = true.

(** Sorting what is in order already changes nothing. *)
Lemma sortby_sorted_id (l : Labelled K A) :
  Sorted le_label l -> sortby leb l = l.
Proof.
  induction 1 as [|x l Hs IH Hhd]; [reflexivity|].
  simpl. rewrite IH. destruct Hhd as [|y l' Hxy]; [reflexivity|].
  simpl. unfold le_label in Hxy. now rewrite Hxy.
Qed.

Lemma insert_by_past (x : K * A) (pre post : Labelled K A) :
  Forall (fun w => leb (fst x) (fst w) = false) pre ->
  HdRel le_label x post ->
  insert_by leb x (pre ++ post) = pre ++ x :: post.
Proof.
  intros Hpre Hpost. induction Hpre as [|w pre Hw _ IH]; simpl.
  - destruct Hpost as [|y post Hxy]; [reflexivity|].
    simpl. unfold le_label in Hxy. now rewrite Hxy.
  - now rewrite Hw, IH.
Qed.

(** Two runs in order, the second wholly below the first, are sorted by
    exchanging them. *)
Lemma sortby_two_runs (hi lo : Labelled K A) :
  Sorted le_label hi -> Sorted le_label lo ->
  Forall (fun x => Forall (fun w => leb (fst x) (fst w) = false) lo) hi ->
  sortby leb (hi ++ lo) = lo ++ hi.
Proof.
  intros Hhi Hlo Hcross. induction Hhi as [|x hi Hs IH Hhd]; simpl.
  - rewrite app_nil_r. now apply sortby_sorted_id.
  - apply Forall_cons_iff in Hcross. destruct Hcross as [Hx Hrest].
    change (fold_right (insert_by leb) [] (hi ++ lo)) with (sortby leb (hi ++ lo)).
    rewrite (IH Hrest). now apply insert_by_past.
Qed.
End SortRuns.

Lemma map_labels_app {K A : Type} (f : K -> K) (l l' : Labelled K A) :
  map_labels f (l ++ l') = map_labels f l ++ map_labels f l'.
Proof. apply map_app. Qed.

(** A run of columns on which the remapping is a shift stays in order. *)
Lemma remapped_run_sorted {A : Type} (shift : Q) (l : Labelled Q A) :
  Forall (fun v => (remap_lon v == v + shift)%Q) (labels l) ->
  Sorted Qle (labels l) ->
  Sorted (fun p q : Q * A => Qle_bool (fst p) (fst q) = true) (map_labels remap_lon l).
Proof.
  induction l as [|[v a] l IH]; simpl; intros Hsh Hs; [constructor|].
  apply Forall_cons_iff in Hsh. destruct Hsh as [Hv Hl].
  apply Sorted_inv in Hs. destruct Hs as [Hs Hhd].
  constructor; [now apply IH|].
  destruct l as [|[v' a'] l']; simpl; constructor.
  simpl. apply Qle_bool_iff.
  apply Forall_inv in Hl. apply HdRel_inv in Hhd. simpl in Hl, Hhd.
  rewrite Hv, Hl. lra.
Qed.

(** X7.  A grid in increasing order on [[0, 360)] whose longitudes are
    multiples of [2^-43] comes out of the cleaning cell rotated: first the
    columns from 180 on, now labelled from -180 up, then the columns below 180,
    each column still with its own data. *)
Theorem clean_rotates_grid (esgf_ds : Lazy GridDataset) (name : string)
  (east west : Labelled Q (Labelled Q TimeSeries)) :
  x_axis (payload esgf_ds) = Some name ->
  tas (payload esgf_ds) = east ++ west ->
  Sorted Qle (labels east) -> Sorted Qle (labels west) ->
  Forall (fun v => on_grid (-43) v /\ (0 <= v)%Q /\ (v < 180)%Q) (labels east) ->
  Forall (fun v => on_grid (-43) v /\ (180 <= v)%Q /\ (v < 360)%Q) (labels west) ->
  exists out,
    outcome (cell_clean esgf_ds) = Ok out /\
    tas (payload out) = map_labels remap_lon west ++ map_labels remap_lon east /\
    Forall2 (fun p q => (fst p == fst q - 360)%Q /\ snd p = snd q)
            (map_labels remap_lon west) west /\
    Forall2 (fun p q => (fst p == fst q)%Q /\ snd p = snd q)
            (map_labels remap_lon east) east /\
    graph out = graph esgf_ds ++ [TSortby name].
Proof.
  intros Hx Ht Hse Hsw He Hw.
  unfold cell_clean, outcome, call, bind, ret, cf_axis_name. rewrite Hx. simpl.
  eexists. split; [reflexivity|].
  simpl. split; [|split; [|split; [|reflexivity]]].
  - rewrite Ht, map_labels_app.
    apply sortby_two_runs.
    + apply (remapped_run_sorted 0); [|exact Hse].
      apply Forall_impl with (2 := He). intros v (H0 & H1 & H2).
      rewrite (remap_lon_east v H0 H1 H2). ring.
    + apply (remapped_run_sorted (-360)); [|exact Hsw].
      apply Forall_impl with (2 := Hw). intros v (H0 & H1 & H2).
      rewrite (remap_lon_west v H0 H1 H2). ring.
    + apply Forall_forall. intros x Hxin. apply Forall_forall. intros y Hyin.
      apply in_map_iff in Hxin. destruct Hxin as ([a sa] & <- & Ha).
      apply in_map_iff in Hyin. destruct Hyin as ([b sb] & <- & Hb).
      cbn [fst snd].
      rewrite Forall_forall in He, Hw.
      assert (Ha' : In a (labels east)) by (apply in_map_iff; now exists (a, sa)).
      assert (Hb' : In b (labels west)) by (apply in_map_iff; now exists (b, sb)).
      destruct (He a Ha') as (A0 & A1 & A2). destruct (Hw b Hb') as (B0 & B1 & B2).
      destruct (Qle_bool (remap_lon a) (remap_lon b)) eqn:E; [|reflexivity].
      apply Qle_bool_iff in E.
      rewrite (remap_lon_east a A0 A1 A2), (remap_lon_west b B0 B1 B2) in E. lra.
  - clear Ht Hsw. induction west as [|[v a] west IH]; [constructor|].
    apply Forall_cons_iff in Hw. destruct Hw as [(H0 & H1 & H2) Hw].
    constructor; [|exact (IH Hw)].
    cbn [fst snd]. split; [now apply remap_lon_west | reflexivity].
  - clear Ht Hse. induction east as [|[v a] east IH]; [constructor|].
    apply Forall_cons_iff in He. destruct He as [(H0 & H1 & H2) He].
    constructor; [|exact (IH He)].
    cbn [fst snd]. split; [now apply remap_lon_east | reflexivity].
Qed.

Lemma clean_rotates_grid_witness :
  exists out,
    outcome (cell_clean (mkLazy [TOpenDAP] demo_grid)) = Ok out /\
    tas (payload out)
    = map_labels remap_lon (skipn 2 (tas demo_grid))
      ++ map_labels remap_lon (firstn 2 (tas demo_grid)) /\
    Forall2 (fun p q => (fst p == fst q - 360)%Q /\ snd p = snd q)
            (map_labels remap_lon (skipn 2 (tas demo_grid))) (skipn 2 (tas demo_grid)) /\
    Forall2 (fun p q => (fst p == fst q)%Q /\ snd p = snd q)
            (map_labels remap_lon (firstn 2 (tas demo_grid))) (firstn 2 (tas demo_grid)) /\
    graph out = [TOpenDAP] ++ [TSortby "lon"].
Proof.
  apply (clean_rotates_grid (mkLazy [TOpenDAP] demo_grid) "lon"
           (firstn 2 (tas demo_grid)) (skipn 2 (tas demo_grid))).
  - reflexivity.
  - reflexivity.
  - repeat constructor; simpl; lra.
  - repeat constructor; simpl; lra.
  - repeat constructor; try (simpl; lra).
    + exists 0%Z. reflexivity.
    + exists (90 * 2 ^ 43)%Z. reflexivity.
  - repeat constructor; try (simpl; lra).
    + exists (180 * 2 ^ 43)%Z. reflexivity.
    + exists (270 * 2 ^ 43)%Z. reflexivity.
Defined.

(** ** The notebook as a straight line *)

Ltac log_step H :=
  match type of H with
  | context [match ?r with Ok _ => _ | Raised _ => _ end] =>
      destruct r eqn:?;
      cbn [bind call ret fst snd app exn_of graph payload map ev_op] in H
  end.

Ltac split_in H :=
  simpl in H;
  repeat match type of H with
    | _ \/ _ => destruct H as [H|H]
    | False => contradiction
    end.

Ltac script_cases :=
  repeat match goal with
    | |- context [match ?r with Ok _ => _ | Raised _ => _ end] =>
        destruct r;
        cbn [bind call ret fst snd app exn_of graph payload map ev_op filter
             succeeded ev_exn]
    end.

(** X8.  Every run, completed or not, goes through the calls of the notebook
    from the top, in the order of the cells, without a repeat or a jump: the
    calls that went through are an initial part of the script, followed in the
    log by at most the one call that failed; they are the whole script exactly
    when the run completes. *)
Theorem run_follows_script (w : World) :
  exists rest,
    script = map op_name (completed_ops (notebook w)) ++ rest /\
    (List.length (ops (notebook w)) <= S (List.length (completed_ops (notebook w))))%nat /\
    (rest = [] <-> exists fig, outcome (notebook w) = Ok fig).
Proof.
  unfold outcome, ops, completed_ops, trace. unfold_cells.
  cbn [bind call ret fst snd app exn_of graph payload map ev_op filter
       succeeded ev_exn].
  script_cases;
    (eexists; split; [reflexivity|]; split; [simpl; lia|];
     split; [intros E; first [discriminate E | eexists; reflexivity]
            | intros [fig E]; first [discriminate E | reflexivity]]).
Qed.

(** ** What is handed from one call to the next *)

(** X9.  Whenever the model files are opened, [open_mfdataset] receives the
    OPeNDAP URL of every file the file search returned for the hit at index 1,
    one entry per file and in that order; nothing is filtered out, not even a
    file without such a URL. *)
Theorem opendap_urls_of_second_hit (w : World) (urls : list (option string)) :
  In (OpOpenDAP urls) (ops (notebook w)) ->
  exists hits second files,
    esgf_search w ctx = Ok hits /\
    nth_error hits 1 = Some second /\
    esgf_file_search w esgf_endpoint second = Ok files /\
    urls = map opendap_url files.
Proof.
  unfold ops, trace. intros H. unfold_cells.
  cbn [bind call ret fst snd app exn_of graph payload map ev_op] in H.
  repeat log_step H;
    split_in H; try discriminate H;
    (injection H as <-; do 3 eexists; repeat split;
     first [ apply getitem_nth; eassumption
           | match goal with E : esgf_file_search _ _ _ = _ |- _ => exact E end ]).
Qed.

Lemma opendap_urls_of_second_hit_witness :
  exists hits second files,
    esgf_search demo_world ctx = Ok hits /\
    nth_error hits 1 = Some second /\
    esgf_file_search demo_world esgf_endpoint second = Ok files /\
    map opendap_url demo_files = map opendap_url files.
Proof.
  apply (opendap_urls_of_second_hit demo_world (map opendap_url demo_files)).
  vm_compute. repeat (first [left; reflexivity | right]).
Defined.

(** X10.  Whenever the download is called, it gets the two credentials just
    as the environment has them, unset ones as [None], together with the
    datastream and the two dates fixed in the notebook. *)
Theorem download_arguments (w : World) (username token : option string)
  (stream startdate enddate : string) :
  In (OpDownload username token stream startdate enddate) (ops (notebook w)) ->
  username = environ w "ARM_USERNAME" /\
  token = environ w "ARM_PASSWORD" /\
  stream = "sgpmetE13.b1" /\ startdate = "2013-01-01" /\ enddate = "2013-12-31".
Proof.
  unfold ops, trace. intros H. unfold_cells.
  cbn [bind call ret fst snd app exn_of graph payload map ev_op] in H.
  repeat log_step H;
    split_in H; try discriminate H;
    (injection H as <- <- <- <- <-; repeat split).
Qed.

Lemma download_arguments_witness :
  None = environ no_credentials_world "ARM_USERNAME" /\
  None = environ no_credentials_world "ARM_PASSWORD" /\
  datastream = "sgpmetE13.b1" /\ start_date = "2013-01-01" /\ end_date = "2013-12-31".
Proof.
  apply (download_arguments no_credentials_world None None
           datastream start_date end_date).
  vm_compute. repeat (first [left; reflexivity | right]).
Defined.

(** ** An observation dataset without rows *)

Ltac both_step H :=
  match type of H with
  | context [match ?r with Ok _ => _ | Raised _ => _ end] =>
      destruct r eqn:?;
      cbn [bind call ret fst snd app exn_of graph payload map ev_op] in H |- *
  end.

(** X11.  When the observation files that the run opened hold no row, the run
    ends at the first [.values[0]]: with [IndexError] when the read itself went
    through, the failed [getitem] being the last call, and with the failure of
    the read otherwise.  The nearest grid point is never looked up. *)
Theorem nearest_needs_observations (w : World) (files : list string) :
  In (OpOpenFiles files) (ops (notebook w)) ->
  open_files w files = Ok [] ->
  ~ In OpSelNearest (ops (notebook w)) /\
  match dask_compute w [TOpenFiles] with
  | Ok _ =>
      outcome (notebook w) = Raised IndexError /\
      last (trace (notebook w)) (mkEvent OpClient None)
      = mkEvent (OpGetitem 0) (Some IndexError)
  | Raised e => outcome (notebook w) = Raised e
  end.
Proof.
  unfold outcome, ops, trace. intros H Hopen. unfold_cells.
  cbn [bind call ret fst snd app exn_of graph payload map ev_op] in H |- *.
  repeat both_step H;
    split_in H; try discriminate H;
    injection H as ->;
    match goal with
    | E : open_files w files = ?r |- _ =>
        rewrite Hopen in E; first [discriminate E | injection E as <-]
    end;
    try match goal with
        | G : getitem (map _ []) 0 = Ok _ |- _ => discriminate G
        | G : getitem (map _ []) 0 = Raised _ |- _ => injection G as <-
        end;
    (split; [intros Hin; split_in Hin; discriminate Hin|]);
    first [ reflexivity | split; reflexivity ].
Qed.

Lemma nearest_needs_observations_witness :
  ~ In OpSelNearest (ops (notebook empty_site_world)) /\
  match dask_compute empty_site_world [TOpenFiles] with
  | Ok _ =>
      outcome (notebook empty_site_world) = Raised IndexError /\
      last (trace (notebook empty_site_world)) (mkEvent OpClient None)
      = mkEvent (OpGetitem 0) (Some IndexError)
  | Raised e => outcome (notebook empty_site_world) = Raised e
  end.
Proof.
  apply (nearest_needs_observations empty_site_world ["sgpmetE13.b1.20130101.000000.cdf"]).
  - vm_compute. repeat (first [left; reflexivity | right]).
  - reflexivity.
Defined.

(** ** Steps that cannot fail *)

(** Sorted first, a dataset with at least one row is always resampled, and the
    months of the result are those of the span it covers. *)
Lemma resample_after_sort (ds : SiteDataset) :
  ds <> [] ->
  exists out,
    resample_1M_mean (temp_mean (sortby ts_leb ds)) = Ok out /\
    out <> [] /\
    NoDup (months_of out) /\
    (forall m, In m (months_of out) <->
               exists a b, In a (labels ds) /\ In b (labels ds) /\
                           (month_index a <= m <= month_index b)%Z).
Proof.
  intros Hne.
  set (s := temp_mean (sortby ts_leb ds)).
  assert (Hlab : labels s = labels (sortby ts_leb ds)) by apply temp_mean_labels.
  assert (Hsorted : StronglySorted (fun a b => ts_leb a b = true) (labels s)).
  { rewrite Hlab. apply sortby_time_strongly_sorted. }
  assert (Hmono : is_monotonic ts_leb (labels s) = true).
  { apply sorted_is_monotonic. now apply StronglySorted_Sorted. }
  assert (Hs : s <> []).
  { intros E. apply Hne.
    assert (Hl : List.length (labels s) = List.length ds).
    { rewrite Hlab. unfold labels. rewrite length_map.
      apply Permutation_length, sortby_perm. }
    rewrite E in Hl. destruct ds; [reflexivity | discriminate]. }
  assert (Hmem : forall m, In m (month_span s) <->
               exists a b, In a (labels ds) /\ In b (labels ds) /\
                           (month_index a <= m <= month_index b)%Z).
  { intros m. rewrite (month_span_members _ m Hsorted), Hlab.
    split; intros (a & b & Ha & Hb & H); exists a, b;
      (split; [|split]); trivial; now apply sortby_labels_in. }
  unfold resample_1M_mean. destruct s as [|p s'] eqn:Es; [congruence|].
  rewrite Hmono. eexists. split; [reflexivity|].
  unfold months_of. rewrite resample_months.
  split; [|split; [apply month_span_nodup | exact Hmem]].
  intros E. apply map_eq_nil in E.
  assert (Hin : In (month_index (fst p)) (month_span (p :: s'))).
  { apply Hmem. exists (fst p), (fst p).
    assert (Hp : In (fst p) (labels ds)).
    { apply sortby_labels_in. rewrite <- Hlab. now left. }
    repeat split; trivial; lia. }
  rewrite E in Hin. destruct Hin.
Qed.
(** X12.  Two steps are never the one a run fails at: reading the
    environment, and resampling the observations, which by then are sorted and
    not empty. *)
Theorem steps_that_cannot_fail (w : World) (op : Op) (e : Exn) :
  In (mkEvent op (Some e)) (trace (notebook w)) -> cannot_fail op = false.
Proof.
  unfold trace. intros H. unfold_cells.
  cbn [bind call ret fst snd app exn_of graph payload map ev_op] in H.
  repeat log_step H;
    split_in H; try discriminate H;
    injection H as <- <-; try reflexivity;
    match goal with
    | E : resample_1M_mean (temp_mean (sortby ts_leb ?ds)) = Raised _,
      G : getitem (map _ ?ds) 0 = Ok _ |- _ =>
        destruct (resample_after_sort ds) as (out & Hout & _);
          [intros ->; discriminate G | congruence]
    end.
Qed.

Lemma steps_that_cannot_fail_witness :
  cannot_fail (OpDownload None None datastream start_date end_date) = false.
Proof.
  apply (steps_that_cannot_fail no_credentials_world _
           (TypeError "sequence item: expected str instance, NoneType found")).
  vm_compute. repeat (first [left; reflexivity | right]).
Defined.

(** ** What a completed run shows *)

Lemma convert_series_labels (src dst : Units.Unit) (s s' : TimeSeries) :
  Units.convert_series src dst s = Ok s' -> labels s' = labels s.
Proof.
  revert s'. induction s as [|[t v] s IH]; intros s' H.
  - injection H as <-. reflexivity.
  - cbn [Units.convert_series] in H.
    destruct (Units.convert src dst v) as [v'|e];
      destruct (Units.convert_series src dst s) as [s''|e']; try discriminate H.
    injection H as <-. simpl. now rewrite (IH s'' eq_refl).
Qed.

Lemma convert_units_labels (target : string) (q out : Units.Quantity) :
  Units.convert_units target q = Ok out ->
  labels (Units.q_series out) = labels (Units.q_series q) /\
  Units.q_units out = Units.parse_units target.
Proof.
  unfold Units.convert_units.
  destruct (Units.convert_series (Units.q_units q) (Units.parse_units target)
                                 (Units.q_series q)) as [s|e] eqn:E; [|discriminate].
  intros H. injection H as <-. split; [|reflexivity].
  now apply convert_series_labels in E.
Qed.

Lemma getitem_first_row {A B : Type} (f : A -> B) (l : list A) (b : B) :
  getitem (map f l) 0 = Ok b -> l <> [].
Proof. intros H ->. discriminate H. Qed.


Lemma quantify_checked_series (defined : string -> bool) (units : string)
  (s : TimeSeries) (q : Units.Quantity) :
  Units.quantify_checked defined units s = Ok q -> Units.q_series q = s.
Proof.
  unfold Units.quantify_checked, Units.quantify.
  destruct (Units.parse_units units); try destruct (defined name);
    intros H; try discriminate H; now injection H as <-.
Qed.

(** X13.  The figure of a completed run overlays two curves, the model one
    first.  The model curve has only points dated from 2013-01-01 to
    2013-12-31; the observed curve has one point for every calendar month
    between the earliest and the latest observation of the files the run
    opened, and none twice. *)
Theorem completed_figure (w : World) (fig : list Plot) :
  outcome (notebook w) = Ok fig ->
  exists model observed files arm_ds,
    fig = [mkPlot esgf_label model; mkPlot arm_label observed] /\
    Forall (within_dates (mkDate 2013 1 1) (mkDate 2013 12 31)) (labels model) /\
    In (OpOpenFiles files) (ops (notebook w)) /\
    open_files w files = Ok arm_ds /\
    observed <> [] /\
    NoDup (months_of observed) /\
    (forall m, In m (months_of observed) <->
               exists a b, In a (labels arm_ds) /\ In b (labels arm_ds) /\
                           (month_index a <= m <= month_index b)%Z).
Proof.
  unfold outcome, ops, trace. intros H. unfold_cells.
  cbn [bind call ret fst snd app exn_of graph payload map ev_op] in H |- *.
  repeat run_step H.
  injection H as <-.
  match goal with
  | Eopen : open_files w ?files = Ok ?ds,
    Eres : resample_1M_mean (temp_mean (sortby ts_leb ?ds)) = Ok ?obs,
    Erow : getitem (map (fun p => row_lat (snd p)) ?ds) 0 = Ok _,
    Eslice : sel_time_slice start_date end_date _ = Ok ?sl,
    Equant : Units.quantify_checked _ _ _ = Ok ?q0,
    Econv : Units.convert_units "degC" _ = Ok ?q |- _ =>
      destruct (resample_after_sort ds (getitem_first_row _ _ _ Erow))
        as (out & Hout & Hne & Hnd & Hmem);
      rewrite Eres in Hout; injection Hout as <-;
      apply convert_units_labels in Econv; destruct Econv as [Hlab _];
      apply quantify_checked_series in Equant;
      rewrite Equant in Hlab; cbn [ps_tas] in Hlab;
      rewrite sel_time_slice_2013 in Eslice; injection Eslice as Hsl;
      exists (map (fun p => (fst p, Some (snd p))) (Units.q_series q)), obs, files, ds
  end.
  split; [reflexivity|].
  split.
  { unfold labels at 1. rewrite map_map. cbn [fst].
    change (map (fun x : Timestamp * Q => fst x) ?l) with (labels l).
    rewrite Hlab, <- Hsl.
    apply Forall_forall. intros t Ht.
    unfold labels in Ht. apply in_map_iff in Ht. destruct Ht as (p & <- & Hp).
    now apply slice_keeps_within in Hp. }
  split.
  { simpl. repeat (first [left; reflexivity | right]). }
  repeat split; trivial; now apply Hmem.
Qed.

Lemma completed_figure_witness :
  exists fig model observed files arm_ds,
    outcome (notebook demo_world) = Ok fig /\
    fig = [mkPlot esgf_label model; mkPlot arm_label observed] /\
    Forall (within_dates (mkDate 2013 1 1) (mkDate 2013 12 31)) (labels model) /\
    In (OpOpenFiles files) (ops (notebook demo_world)) /\
    open_files demo_world files = Ok arm_ds /\
    observed <> [] /\
    NoDup (months_of observed) /\
    (forall m, In m (months_of observed) <->
               exists a b, In a (labels arm_ds) /\ In b (labels arm_ds) /\
                           (month_index a <= m <= month_index b)%Z).
Proof.
  exists demo_figure.
  destruct (completed_figure demo_world _ demo_world_completes)
    as (model & observed & files & arm_ds & H).
  exists model, observed, files, arm_ds. split; [exact demo_world_completes | exact H].
Defined.

(** ** The columns of the cleaned grid *)

(** X16.  On a dataset without an X axis the cleaning cell ends with the
    [KeyError] of the axis lookup; on any other it only rearranges: the columns
    that come out are those that went in, relabelled by the remapping, none
    lost and none repeated, each with its data; the unit is as before and the
    deferred chain has the sort as one more task.  The relabelled coordinate is
    no longer marked as the X axis, so that the cell fails when it is run a
    second time on its own result. *)
Theorem clean_keeps_columns (esgf_ds : Lazy GridDataset) :
  match x_axis (payload esgf_ds) with
  | Some name =>
      exists out,
        outcome (cell_clean esgf_ds) = Ok out /\
        Permutation (tas (payload out))
                    (map_labels remap_lon (tas (payload esgf_ds))) /\
        tas_units (payload out) = tas_units (payload esgf_ds) /\
        graph out = graph esgf_ds ++ [TSortby name] /\
        x_axis (payload out) = None /\
        outcome (cell_clean out) = Raised (CfKeyError "X")
  | None => outcome (cell_clean esgf_ds) = Raised (CfKeyError "X")
  end.
Proof.
  unfold cell_clean, outcome, call, bind, ret, cf_axis_name.
  destruct (x_axis (payload esgf_ds)) as [name|] eqn:Hx; simpl; [|reflexivity].
  eexists. split; [reflexivity|]. simpl.
  split; [apply sortby_perm|]. now repeat split.
Qed.

(** ** The monthly mean cell *)

(** X17.  Whatever the order of the rows in the observation files, the monthly
    mean cell sorts them by time before it resamples, so that on a dataset
    with at least one row the resampling is never refused: the cell ends with
    the failure of its [.compute()] or returns one value for every calendar
    month between the earliest and the latest observation, none twice. *)
Theorem monthly_mean_cell_sorts_first (w : World) (arm_ds : Lazy SiteDataset) :
  payload arm_ds <> [] ->
  match dask_compute w ((graph arm_ds ++ [TSortby "time"]) ++ [TResampleMean]) with
  | Ok _ =>
      exists out,
        outcome (cell_monthly_mean w arm_ds) = Ok out /\
        NoDup (months_of out) /\
        (forall m, In m (months_of out) <->
                   exists a b, In a (labels (payload arm_ds)) /\
                               In b (labels (payload arm_ds)) /\
                               (month_index a <= m <= month_index b)%Z)
  | Raised e => outcome (cell_monthly_mean w arm_ds) = Raised e
  end.
Proof.
  destruct arm_ds as [g ds]. cbn [graph payload]. intros Hne.
  destruct (resample_after_sort ds Hne) as (out & Hout & _ & Hnd & Hmem).
  unfold cell_monthly_mean, compute, defer, outcome, bind, call, ret.
  cbv zeta. cbn [graph payload]. rewrite Hout.
  destruct (dask_compute w ((g ++ [TSortby "time"]) ++ [TResampleMean]));
    cbn [fst snd app exn_of]; [|reflexivity].
  exists out. split; [reflexivity|]. split; [exact Hnd | exact Hmem].
Qed.

Lemma monthly_mean_cell_sorts_first_witness :
  match dask_compute demo_world (([TOpenFiles] ++ [TSortby "time"]) ++ [TResampleMean]) with
  | Ok _ =>
      exists out,
        outcome (cell_monthly_mean demo_world (mkLazy [TOpenFiles] demo_site)) = Ok out /\
        NoDup (months_of out) /\
        (forall m, In m (months_of out) <->
                   exists a b, In a (labels demo_site) /\ In b (labels demo_site) /\
                               (month_index a <= m <= month_index b)%Z)
  | Raised e =>
      outcome (cell_monthly_mean demo_world (mkLazy [TOpenFiles] demo_site)) = Raised e
  end.
Proof.
  apply (monthly_mean_cell_sorts_first demo_world (mkLazy [TOpenFiles] demo_site)).
  discriminate.
Defined.

(** ** An undefined unit *)

(** A model variable whose unit name the registry does not hold ends the run
    at [quantify()], before any conversion is tried. *)
Example undefined_unit_ends_run :
  outcome (notebook odd_units_world) = Raised (UndefinedUnitError "not_a_unit") /\
  last (ops (notebook odd_units_world)) OpClient = OpQuantify "not_a_unit".
Proof. vm_compute. split; reflexivity. Qed.
